(** * neurst.layers.common_layers: a shallow embedding

    The Transformer building blocks of [neurst/layers/common_layers.py]
    ([PrePostProcessingWrapper], [TransformerFFN], [MultiHeadDenseLayer]
    and [PositionEmbeddingWrapper]) as Rocq functions, and the properties
    of their specification proved (or refuted) on them.

    Conventions of the embedding:
    - Python exceptions are the [Raise] case of [result];
    - a tensor is its shape together with its elements in row-major
      order, as the tensor runtime stores it;
    - tensor elements are extended reals [fval]: a real number, one of
      the two infinities, or NaN.  The special values follow IEEE 754
      (x/0 is an infinity, 0 * inf is NaN, NaN propagates); rounding is
      not modelled, and neither are the sign of zero and the dtype, so a
      cast between float types keeps the value. *)

From Stdlib Require Import Reals ZArith List Lia Lra.
From stdpp Require Import gmap strings.
Import ListNotations.

Set Implicit Arguments.

(** ** Python values, exceptions and keyword arguments *)

Module Py.

Inductive exn :=
| KeyError
| AssertionError
| ValueError
| TypeError
| IndexError
| ZeroDivisionError
| AttributeError
| InvalidArgumentError.

Inductive result (A : Type) :=
| Ok (a : A)
| Raise (e : exn).
Arguments Ok {A} a.
Arguments Raise {A} e.

Definition bind {A B} (r : result A) (k : A -> result B) : result B :=
  match r with
  | Ok a => k a
  | Raise e => Raise e
  end.

Definition raises {A} (r : result A) : Prop := exists e, r = Raise e.

(** [assert c] *)
Definition assert (c : bool) : result unit :=
  if c then Ok tt else Raise AssertionError.

(** [l[i]], a negative [i] counting from the end. *)
Definition index {A} (l : list A) (i : Z) : result A :=
  let n := Z.of_nat (length l) in
  let j := if (i <? 0)%Z then (i + n)%Z else i in
  if (j <? 0)%Z then Raise IndexError
  else match nth_error l (Z.to_nat j) with
       | Some a => Ok a
       | None => Raise IndexError
       end.

(** [a // b] on integers. *)
Definition floordiv (a b : Z) : result Z :=
  if (b =? 0)%Z then Raise ZeroDivisionError else Ok (a / b)%Z.

(** [a / b] on floats. *)
Definition truediv (a b : R) : result R :=
  if Req_dec_T b 0 then Raise ZeroDivisionError else Ok (a / b)%R.

(** [math.log(a)] *)
Definition math_log (a : R) : result R :=
  if Rlt_dec 0 a then Ok (ln a) else Raise ValueError.

End Py.

Import Py.

Notation "'let*' x ':=' r 'in' k" := (Py.bind r (fun x => k))
  (at level 10, x name, r at level 100, k at level 200,
   format "'[v' 'let*'  x  ':='  r  'in' '/' k ']'").

(** ** Tensor elements *)

Module Num.

Inductive fval :=
| Fin (r : R)
| PInf
| NInf
| NaN.

(** The infinity with the sign of [r]; NaN when [r] is zero. *)
Definition signed_inf (r : R) : fval :=
  if Rlt_dec 0 r then PInf
  else if Rlt_dec r 0 then NInf
  else NaN.

Definition fneg (a : fval) : fval :=
  match a with
  | Fin r => Fin (- r)
  | PInf => NInf
  | NInf => PInf
  | NaN => NaN
  end.

Definition fadd (a b : fval) : fval :=
  match a, b with
  | NaN, _ | _, NaN => NaN
  | Fin x, Fin y => Fin (x + y)
  | PInf, NInf | NInf, PInf => NaN
  | PInf, _ | _, PInf => PInf
  | NInf, _ | _, NInf => NInf
  end.

Definition fsub (a b : fval) : fval := fadd a (fneg b).

Definition fmul (a b : fval) : fval :=
  match a, b with
  | NaN, _ | _, NaN => NaN
  | Fin x, Fin y => Fin (x * y)
  | Fin x, PInf | PInf, Fin x => signed_inf x
  | Fin x, NInf | NInf, Fin x => fneg (signed_inf x)
  | PInf, PInf | NInf, NInf => PInf
  | PInf, NInf | NInf, PInf => NInf
  end.

(** Division; a zero divisor is the positive zero (the only zero
    divisor of the program is [1.0 - 1]). *)
Definition fdiv (a b : fval) : fval :=
  match a, b with
  | NaN, _ | _, NaN => NaN
  | Fin x, Fin y =>
      if Req_dec_T y 0 then signed_inf x else Fin (x / y)
  | Fin _, (PInf | NInf) => Fin 0
  | PInf, Fin y => if Rlt_dec y 0 then NInf else PInf
  | NInf, Fin y => if Rlt_dec y 0 then PInf else NInf
  | (PInf | NInf), (PInf | NInf) => NaN
  end.

Definition fexp (a : fval) : fval :=
  match a with
  | Fin r => Fin (exp r)
  | PInf => PInf
  | NInf => Fin 0
  | NaN => NaN
  end.

Definition fsin (a : fval) : fval :=
  match a with
  | Fin r => Fin (sin r)
  | _ => NaN
  end.

Definition fcos (a : fval) : fval :=
  match a with
  | Fin r => Fin (cos r)
  | _ => NaN
  end.

Definition fsum (l : list fval) : fval := fold_left fadd l (Fin 0).

End Num.

Import Num.

(** ** The tensor runtime

    The primitives of the tensor library that the layers call, each with
    its shape rule, its failure condition and its elements. *)

Module TF.

Record tensor := Tensor { shape : list nat; data : list fval }.

Definition numel (s : list nat) : nat := fold_right Nat.mul 1 s.

Definition ndims (t : tensor) : nat := length (shape t).

(** A tensor holds as many elements as its shape says. *)
Definition wf (t : tensor) : Prop := length (data t) = numel (shape t).

Definition tabulate (n : nat) (f : nat -> fval) : list fval :=
  map f (seq 0 n).

(** The element at a row-major offset. *)
Definition elt (t : tensor) (i : nat) : fval := nth i (data t) NaN.

(** Row-major offset of a multi-index, and back. *)
Fixpoint ravel (s idx : list nat) : nat :=
  match s, idx with
  | _ :: s', j :: idx' => j * numel s' + ravel s' idx'
  | _, _ => 0
  end.

Fixpoint unravel (s : list nat) (i : nat) : list nat :=
  match s with
  | [] => []
  | _ :: s' => i / numel s' :: unravel s' (i mod numel s')
  end.

(** [t[idx]] *)
Definition tget (t : tensor) (idx : list nat) : fval :=
  elt t (ravel (shape t) idx).

(** *** Elementwise operations and broadcasting *)

Definition tf_map (f : fval -> fval) (t : tensor) : tensor :=
  Tensor (shape t) (map f (data t)).

(** [align n s]: [s] with leading dimensions of size 1, up to rank [n]. *)
Definition align (n : nat) (s : list nat) : list nat :=
  repeat 1 (n - length s) ++ s.

Fixpoint broadcast_dims (a b : list nat) : result (list nat) :=
  match a, b with
  | [], [] => Ok []
  | x :: a', y :: b' =>
      let* r := broadcast_dims a' b' in
      if x =? y then Ok (x :: r)
      else if x =? 1 then Ok (y :: r)
      else if y =? 1 then Ok (x :: r)
      else Raise InvalidArgumentError
  | _, _ => Raise InvalidArgumentError
  end.

Definition broadcast_shape (a b : list nat) : result (list nat) :=
  let n := Nat.max (length a) (length b) in
  broadcast_dims (align n a) (align n b).

(** The index read in an operand of (aligned) shape [s] for the output
    index [idx]: a dimension of size 1 is read at 0. *)
Fixpoint bcoords (s idx : list nat) : list nat :=
  match s, idx with
  | d :: s', j :: idx' => (if d =? 1 then 0 else j) :: bcoords s' idx'
  | _, _ => []
  end.

Definition bget (t : tensor) (n : nat) (idx : list nat) : fval :=
  let s := align n (shape t) in
  elt t (ravel s (bcoords s idx)).

Definition tf_binop (f : fval -> fval -> fval) (a b : tensor)
  : result tensor :=
  let* s := broadcast_shape (shape a) (shape b) in
  let n := length s in
  Ok (Tensor s (tabulate (numel s)
                  (fun i => let idx := unravel s i in
                            f (bget a n idx) (bget b n idx)))).

Definition tf_add := tf_binop fadd.
Definition tf_mul := tf_binop fmul.

(** [t * c] and [c * t] for a Python float or scalar tensor [c]. *)
Definition tf_scale (c : fval) (t : tensor) : tensor :=
  tf_map (fun v => fmul v c) t.

(** *** Shape manipulation *)

Definition prodZ (l : list Z) : Z := fold_right Z.mul 1%Z l.
Definition sumZ (l : list Z) : Z := fold_right Z.add 0%Z l.

(** [tf.reshape(t, target)]: the element count must be kept, and at
    most one entry of [target] is -1 and is inferred.  The inference is
    that of the reshape kernel: [p] is the product of the sizes that are
    given and not zero; when a size is zero the zero dimensions of the
    input are left out of its element count [m], so that the missing
    size [m / p] can still be found; [p * missing = m] is required
    unless such a dimension was left out. *)
Definition tf_reshape (t : tensor) (target : list Z) : result tensor :=
  let n := Z.of_nat (numel (shape t)) in
  if existsb (fun d => (d <? -1)%Z) target then Raise InvalidArgumentError
  else
    match count_occ Z.eq_dec target (-1)%Z with
    | 0 =>
        if (prodZ target =? n)%Z
        then Ok (Tensor (map Z.to_nat target) (data t))
        else Raise InvalidArgumentError
    | 1 =>
        let dims := map Z.of_nat (shape t) in
        let sizes_has_zero_dim := existsb (Z.eqb 0) target in
        let p := prodZ (List.filter (fun d => (0 <? d)%Z) target) in
        let input_has_zero_dim :=
          sizes_has_zero_dim && existsb (Z.eqb 0) dims in
        let m := if sizes_has_zero_dim
                 then prodZ (List.filter (fun d => (0 <? d)%Z) dims)
                 else n in
        let missing := (m / p)%Z in
        if negb input_has_zero_dim && negb (p * missing =? m)%Z
        then Raise InvalidArgumentError
        else
          let sizes :=
            map (fun d => if (d =? -1)%Z then missing else d) target in
          if (prodZ sizes =? n)%Z
          then Ok (Tensor (map Z.to_nat sizes) (data t))
          else Raise InvalidArgumentError
    | _ => Raise InvalidArgumentError
    end.

(** [tf.expand_dims(t, axis)] for [0 <= axis <= rank]. *)
Definition tf_expand_dims (t : tensor) (axis : nat) : tensor :=
  Tensor (firstn axis (shape t) ++ 1 :: skipn axis (shape t)) (data t).

(** [tf.concat([a, b], axis=1)] on matrices. *)
Definition tf_concat_axis1 (a b : tensor) : result tensor :=
  match shape a, shape b with
  | [r; ca], [r'; cb] =>
      if r =? r'
      then Ok (Tensor [r; ca + cb]
                 (tabulate (r * (ca + cb))
                    (fun i => let row := i / (ca + cb) in
                              let col := i mod (ca + cb) in
                              if col <? ca then elt a (row * ca + col)
                              else elt b (row * cb + (col - ca)))))
      else Raise InvalidArgumentError
  | _, _ => Raise InvalidArgumentError
  end.

(** [tf.pad(t, [[0, 0], [0, p]])] on a matrix: [p] zero columns on the
    right. *)
Definition tf_pad_right (t : tensor) (p : nat) : result tensor :=
  match shape t with
  | [r; c] =>
      Ok (Tensor [r; c + p]
            (tabulate (r * (c + p))
               (fun i => let row := i / (c + p) in
                         let col := i mod (c + p) in
                         if col <? c then elt t (row * c + col)
                         else Fin 0)))
  | _ => Raise InvalidArgumentError
  end.

(** The sizes of [tf.split(t, sizes, axis=-1)]: they add up to the
    last dimension [d], one entry -1 being inferred. *)
Definition split_sizes (d : nat) (sizes : list Z) : result (list nat) :=
  if existsb (fun z => (z <? -1)%Z) sizes then Raise InvalidArgumentError
  else
    match count_occ Z.eq_dec sizes (-1)%Z with
    | 0 =>
        if (sumZ sizes =? Z.of_nat d)%Z then Ok (map Z.to_nat sizes)
        else Raise InvalidArgumentError
    | 1 =>
        let rest := (sumZ sizes + 1)%Z in
        if (rest <=? Z.of_nat d)%Z
        then Ok (map (fun z => if (z =? -1)%Z
                               then Z.to_nat (Z.of_nat d - rest)
                               else Z.to_nat z) sizes)
        else Raise InvalidArgumentError
    | _ => Raise InvalidArgumentError
    end.

(** Columns [off, off + n) of the last axis. *)
Definition slice_last (t : tensor) (off n : nat) : tensor :=
  let d := List.last (shape t) 0 in
  let rows := numel (removelast (shape t)) in
  Tensor (removelast (shape t) ++ [n])
    (tabulate (rows * n)
       (fun i => elt t ((i / n) * d + off + i mod n))).

Fixpoint split_from (t : tensor) (off : nat) (sizes : list nat)
  : list tensor :=
  match sizes with
  | [] => []
  | n :: sizes' => slice_last t off n :: split_from t (off + n) sizes'
  end.

Definition tf_split (t : tensor) (sizes : list Z) : result (list tensor) :=
  match shape t with
  | [] => Raise InvalidArgumentError
  | _ :: _ =>
      let* ns := split_sizes (List.last (shape t) 0) sizes in
      Ok (split_from t 0 ns)
  end.

(** *** Contractions *)

(** The product of an [m x k] and a [k x n] matrix, both row-major. *)
Definition matmul (m k n : nat) (A B : list fval) : list fval :=
  tabulate (m * n)
    (fun i => fsum (map (fun l => fmul (nth ((i / n) * k + l) A NaN)
                                       (nth (l * n + i mod n) B NaN))
                      (seq 0 k))).

(** [tf.einsum("abc,cd->abd", x, k)] *)
Definition einsum_abc_cd_abd (x k : tensor) : result tensor :=
  match shape x, shape k with
  | [a; b; c], [c'; d] =>
      if c =? c'
      then Ok (Tensor [a; b; d] (matmul (a * b) c d (data x) (data k)))
      else Raise InvalidArgumentError
  | _, _ => Raise InvalidArgumentError
  end.

(** [tf.einsum("abcd,cde->abe", x, k)] *)
Definition einsum_abcd_cde_abe (x k : tensor) : result tensor :=
  match shape x, shape k with
  | [a; b; c; d], [c'; d'; e] =>
      if (c =? c') && (d =? d')
      then Ok (Tensor [a; b; e]
                 (matmul (a * b) (c * d) e (data x) (data k)))
      else Raise InvalidArgumentError
  | _, _ => Raise InvalidArgumentError
  end.

(** *** Lookup *)

(** [tf.gather(table, i)] for a matrix [table] and a scalar index:
    row [i]; an index outside the table is an error. *)
Definition tf_gather_row (table : tensor) (i : Z) : result tensor :=
  match shape table with
  | [p; d] =>
      if ((0 <=? i)%Z && (i <? Z.of_nat p)%Z)%bool
      then Ok (Tensor [d]
                 (tabulate d (fun c => elt table (Z.to_nat i * d + c))))
      else Raise InvalidArgumentError
  | _ => Raise InvalidArgumentError
  end.

(** [tf.gather(table, positions)] for a vector of indices. *)
Definition tf_gather (table : tensor) (positions : list Z)
  : result tensor :=
  match shape table with
  | [p; d] =>
      if forallb (fun i => ((0 <=? i)%Z && (i <? Z.of_nat p)%Z)%bool)
           positions
      then Ok (Tensor [length positions; d]
                 (tabulate (length positions * d)
                    (fun j => elt table
                                (Z.to_nat (nth (j / d) positions 0%Z) * d
                                 + j mod d))))
      else Raise InvalidArgumentError
  | _ => Raise InvalidArgumentError
  end.

(** [add_weight(shape=s, initializer=init)]: a fresh variable, its
    [i]-th element drawn by the initializer. *)
Definition add_weight (s : list Z) (init : nat -> fval) : result tensor :=
  if existsb (fun d => (d <? 0)%Z) s then Raise ValueError
  else
    let s' := map Z.to_nat s in
    Ok (Tensor s' (tabulate (numel s') init)).

End TF.

Import TF.

(** ** Python objects passed as arguments *)

Module PyVal.

Inductive pyval :=
| PyNone
| PyBool (b : bool)
| PyInt (z : Z)
| PyStr (s : string)
| PyTensor (t : tensor).

(** [**kwargs] *)
Definition kwargs := gmap string pyval.

(** The truth value that [if v:] tests; a tensor has one when it
    holds a single element, and an empty one is taken as false. *)
Definition truthy (v : pyval) : result bool :=
  match v with
  | PyNone => Ok false
  | PyBool b => Ok b
  | PyInt z => Ok (negb (z =? 0)%Z)
  | PyStr s => Ok (negb (String.eqb s ""))
  | PyTensor t =>
      match data t with
      | [] => Ok false
      | [Fin r] => Ok (if Req_dec_T r 0 then false else true)
      | [_] => Ok true
      | _ => Raise ValueError
      end
  end.

(** [v == s] for a string literal [s]. *)
Definition eq_str (v : pyval) (s : string) : bool :=
  match v with
  | PyStr s' => String.eqb s' s
  | _ => false
  end.

End PyVal.

Import PyVal.

(** ** [tf.nest] *)

Module Nest.

#[local] Set Warnings "-register-all".

Inductive nest (A : Type) :=
| Leaf (a : A)
| Node (children : list (nest A)).
Arguments Leaf {A} a.
Arguments Node {A} children.

(** [tf.nest.is_nested] *)
Definition is_nested {A} (s : nest A) : bool :=
  match s with
  | Leaf _ => false
  | Node _ => true
  end.

(** [tf.nest.flatten] *)
Fixpoint flatten {A} (s : nest A) : list A :=
  match s with
  | Leaf a => [a]
  | Node l => flat_map flatten l
  end.

(** Fills the leaves of [s], left to right, from [flat]; returns what
    is left of [flat]. *)
Fixpoint fill {A B} (s : nest A) (flat : list B)
  : option (nest B * list B) :=
  match s with
  | Leaf _ =>
      match flat with
      | b :: rest => Some (Leaf b, rest)
      | [] => None
      end
  | Node l =>
      let fix fill_all (l : list (nest A)) (flat : list B)
        : option (list (nest B) * list B) :=
        match l with
        | [] => Some ([], flat)
        | c :: l' =>
            match fill c flat with
            | Some (c', rest) =>
                match fill_all l' rest with
                | Some (cs, rest') => Some (c' :: cs, rest')
                | None => None
                end
            | None => None
            end
        end in
      match fill_all l flat with
      | Some (cs, rest) => Some (Node cs, rest)
      | None => None
      end
  end.

(** [tf.nest.pack_sequence_as(structure, flat_sequence)] *)
Definition pack_sequence_as {A B} (s : nest A) (flat : list B)
  : result (nest B) :=
  match fill s flat with
  | Some (s', []) => Ok s'
  | _ => Raise ValueError
  end.

(** [tf.nest.map_structure(f, xs, ys)] on two flat lists. *)
Fixpoint map_structure2 {A B C} (f : A -> B -> result C)
  (xs : list A) (ys : list B) : result (list C) :=
  match xs, ys with
  | [], [] => Ok []
  | x :: xs', y :: ys' =>
      let* c := f x y in
      let* cs := map_structure2 f xs' ys' in
      Ok (c :: cs)
  | _, _ => Raise ValueError
  end.

End Nest.

Import Nest.

(** ** [PrePostProcessingWrapper]: the "n" - layer - "da" block *)

Module PrePostProcessingWrapper.

Section Layer.

(** The state that the collaborators read and write: variables,
    the random generator of dropout. *)
Variable St : Type.

Definition M (A : Type) : Type := St -> result A * St.

Definition ret {A} (a : A) : M A := fun s => (Ok a, s).

Definition lift {A} (r : result A) : M A := fun s => (r, s).

Definition mbind {A B} (m : M A) (k : A -> M B) : M B :=
  fun s => match m s with
           | (Ok a, s') => k a s'
           | (Raise e, s') => (Raise e, s')
           end.

(** [tf.keras.layers.LayerNormalization(epsilon=..., dtype="float32")]
    and [tf.nn.dropout(y, rate=...)], of the tensor runtime. *)
Variable LayerNormalization : R -> tensor -> M tensor.
Variable dropout : tensor -> R -> M tensor.

Record t := {
  _dropout_rate : R;
  _layer : tensor -> list pyval -> kwargs -> M tensor;
  _norm_layer : option (tensor -> M tensor)
}.

Definition init (layer : tensor -> list pyval -> kwargs -> M tensor)
  (dropout_rate : R) : t :=
  {| _dropout_rate := dropout_rate;
     _layer := layer;
     _norm_layer := None |}.

(** Creates norm layer. *)
Definition build (self : t) : t :=
  {| _dropout_rate := _dropout_rate self;
     _layer := _layer self;
     _norm_layer := Some (LayerNormalization (1 / 1000000)) |}.

(** [call(self, inputs, *args, **kwargs)] *)
Definition call (self : t) (inputs : tensor) (args : list pyval)
  (kw : kwargs) : M tensor :=
  mbind (lift (match kw !! "is_training"%string with
               | Some v => Ok v
               | None => Raise KeyError
               end)) (fun is_training =>
  (* n *)
  mbind (match _norm_layer self with
         | Some norm => norm inputs
         | None => lift (Raise TypeError)
         end) (fun y =>
  (* layer: self att / ffn *)
  mbind (_layer self y args kw) (fun y =>
  (* d *)
  mbind (mbind (lift (truthy is_training)) (fun b =>
         if b then dropout y (_dropout_rate self) else ret y)) (fun y =>
  (* a *)
  lift (tf_add inputs y))))).

End Layer.

End PrePostProcessingWrapper.

(** ** [MultiHeadDenseLayer]: splitting or combining heads *)

Module MultiHeadDenseLayer.

Record t := {
  _output_units : nest Z;
  _num_heads : Z;
  _kernel_initializer : nat -> fval;
  _bias_initializer : nat -> fval;
  _use_bias : bool;
  _is_output_transform : bool;
  (** what [get_activation(activation)] resolved to *)
  _activation_fn : option (fval -> fval);
  _flatten_output_units : list Z;
  _kernel : option tensor;
  _bias : option tensor;
  built : bool
}.

Definition init (output_units : nest Z) (num_heads : Z)
  (kernel_initializer bias_initializer : nat -> fval)
  (activation_fn : option (fval -> fval))
  (use_bias is_output_transform : bool) : result t :=
  let self :=
    {| _output_units := output_units;
       _num_heads := num_heads;
       _kernel_initializer := kernel_initializer;
       _bias_initializer := bias_initializer;
       _use_bias := use_bias;
       _is_output_transform := is_output_transform;
       _activation_fn := activation_fn;
       (* compatible *)
       _flatten_output_units := flatten output_units;
       _kernel := None;
       _bias := None;
       built := false |} in
  let* _ := (if is_output_transform
             then assert (negb (is_nested output_units))
             else Ok tt) in
  Ok self.

(** [self._output_units] where the code uses it as one integer. *)
Definition scalar_output_units (self : t) : result Z :=
  match _output_units self with
  | Leaf n => Ok n
  | Node _ => Raise TypeError
  end.

(** Compatible kernel for variable storage. *)
Definition compat_kernel_shape (self : t) (input_shape : list nat)
  : result (list Z) :=
  if _is_output_transform self then
    let* d1 := index input_shape (-1) in
    let* d2 := index input_shape (-2) in
    let* n := scalar_output_units self in
    Ok [(Z.of_nat d1 * Z.of_nat d2)%Z; n]
  else
    let* d1 := index input_shape (-1) in
    Ok [Z.of_nat d1; sumZ (_flatten_output_units self)].

(** The kernel shape. *)
Definition kernel_shape (self : t) : result (list Z) :=
  if _is_output_transform self then
    let* n := scalar_output_units self in
    Ok [_num_heads self; (-1)%Z; n]
  else Ok [(-1)%Z; sumZ (_flatten_output_units self)].

(** The bias shape. *)
Definition bias_shape (self : t) : list Z :=
  [sumZ (_flatten_output_units self)].

(** Builds the layer. *)
Definition build (self : t) (input_shape : list nat) : result t :=
  let* ks := compat_kernel_shape self input_shape in
  let* kernel := add_weight ks (_kernel_initializer self) in
  let* bias := (if _use_bias self
                then let* b := add_weight (bias_shape self)
                                 (_bias_initializer self) in
                     Ok (Some b)
                else Ok None) in
  Ok {| _output_units := _output_units self;
        _num_heads := _num_heads self;
        _kernel_initializer := _kernel_initializer self;
        _bias_initializer := _bias_initializer self;
        _use_bias := _use_bias self;
        _is_output_transform := _is_output_transform self;
        _activation_fn := _activation_fn self;
        _flatten_output_units := _flatten_output_units self;
        _kernel := Some kernel;
        _bias := bias;
        built := true |}.

(** The reshape of one split: [tf.shape(x)[:-1]] followed by
    [[num_heads, num_units // num_heads]]. *)
Definition split_heads (self : t) (x : tensor) (num_units : Z)
  : result tensor :=
  let* per_head := floordiv num_units (_num_heads self) in
  tf_reshape x (map Z.of_nat (removelast (shape x))
                  ++ [_num_heads self; per_head]).

(** Implements [call()] for MultiHeadDenseLayer. *)
Definition call (self : t) (inputs : tensor) : result (nest tensor) :=
  let* stored := (match _kernel self with
                  | Some k => Ok k
                  | None => Raise AttributeError
                  end) in
  let* ks := kernel_shape self in
  let* kernel := tf_reshape stored ks in
  let* output := (if _is_output_transform self
                  then einsum_abcd_cde_abe inputs kernel
                  else einsum_abc_cd_abd inputs kernel) in
  let* output := (if _use_bias self
                  then match _bias self with
                       | Some b => tf_add output b
                       | None => Raise TypeError
                       end
                  else Ok output) in
  let* output := (if negb (_is_output_transform self)
                  then
                    let* parts :=
                      tf_split output (_flatten_output_units self) in
                    map_structure2 (split_heads self) parts
                      (_flatten_output_units self)
                  else Ok [output]) in
  let output := match _activation_fn self with
                | Some f => map (tf_map f) output
                | None => output
                end in
  pack_sequence_as (_output_units self) output.

(** [layer(inputs)]: Keras builds the layer on its first call. *)
Definition keras_call (self : t) (inputs : tensor)
  : result (nest tensor * t) :=
  let* self' := (if built self then Ok self
                 else build self (shape inputs)) in
  let* out := call self' inputs in
  Ok (out, self').

End MultiHeadDenseLayer.

(** ** [PositionEmbeddingWrapper] *)

Module PositionEmbeddingWrapper.

(** The position embedding types that [__init__] accepts besides
    [None]. *)
Inductive timing_t := Sinusoids | Emb.

(** [timing in [None, "sinusoids", "emb"]] *)
Definition parse_timing (timing : pyval) : result (option timing_t) :=
  match timing with
  | PyNone => Ok None
  | PyStr s =>
      if String.eqb s "sinusoids" then Ok (Some Sinusoids)
      else if String.eqb s "emb" then Ok (Some Emb)
      else Raise AssertionError
  | _ => Raise AssertionError
  end.

(** [tf.cast(tf.range(n), dtype)] *)
Definition range_float (n : nat) : list fval :=
  map (fun i => Fin (INR i)) (seq 0 n).

(** Adds a bunch of sinusoids of different frequencies to a Tensor. *)
Definition add_sinusoids_timing_signal (x : tensor) (time : option Z)
  (min_timescale max_timescale : R) : result tensor :=
  let* channels := index (shape x) (-1) in
  let* lp :=
    (match shape x with
     | [_; length; _] => (* [batch_size, timesteps, dim] *)
         Ok (length, range_float length)
     | [_; _] => (* [batch_size, dim] *)
         match time with
         | Some t => Ok (1, [Fin (IZR t)])
         | None => Raise TypeError
         end
     | _ => Raise ValueError
     end) in
  let length := fst lp in
  let position := Tensor [length] (snd lp) in
  let num_timescales := channels / 2 in
  let* ratio := truediv max_timescale min_timescale in
  let* log_ratio := math_log ratio in
  let log_timescale_increment :=
    fdiv (Fin log_ratio) (fsub (Fin (INR num_timescales)) (Fin 1)) in
  let inv_timescales :=
    tf_map (fun v => fmul (Fin min_timescale) v)
      (tf_map fexp
         (tf_scale (fneg log_timescale_increment)
            (Tensor [num_timescales] (range_float num_timescales)))) in
  let* scaled_time := tf_mul (tf_expand_dims position 1)
                        (tf_expand_dims inv_timescales 0) in
  let* signal := tf_concat_axis1 (tf_map fsin scaled_time)
                   (tf_map fcos scaled_time) in
  let* signal := tf_pad_right signal (channels mod 2) in
  let* signal :=
    (if ndims x =? 3
     then tf_reshape signal [1%Z; Z.of_nat length; Z.of_nat channels]
     else tf_reshape signal [1%Z; Z.of_nat channels]) in
  tf_add x signal.

Section Layer.

(** The type of what the wrapped embedding layer takes. *)
Variable Inputs : Type.

Record embedding_layer_t := {
  embedding_dim : Z;
  embedding_call : Inputs -> kwargs -> result tensor
}.

Record t := {
  _timing : option timing_t;
  _embedding_layer : embedding_layer_t;
  _embedding_dim : Z;
  _max_positions : Z;
  _position_emb_table : option tensor;
  (** the initial values of the table *)
  _table_initializer : nat -> fval
}.

Definition init (timing : pyval) (embedding_layer : embedding_layer_t)
  (max_positions : Z) (table_initializer : nat -> fval) : result t :=
  let* tm := parse_timing timing in
  Ok {| _timing := tm;
        _embedding_layer := embedding_layer;
        _embedding_dim := embedding_dim embedding_layer;
        _max_positions := max_positions;
        _position_emb_table := None;
        _table_initializer := table_initializer |}.

(** The table is drawn with the standard deviation
    [embedding_dim ** -0.5], which is computed before the weight is
    made; the values drawn are [_table_initializer]. *)
Definition build (self : t) : result t :=
  match _timing self with
  | Some Emb =>
      let* _ := (if (_embedding_dim self =? 0)%Z
                 then Raise ZeroDivisionError else Ok tt) in
      let* table := add_weight [_max_positions self; _embedding_dim self]
                      (_table_initializer self) in
      Ok {| _timing := _timing self;
            _embedding_layer := _embedding_layer self;
            _embedding_dim := _embedding_dim self;
            _max_positions := _max_positions self;
            _position_emb_table := Some table;
            _table_initializer := _table_initializer self |}
  | _ => Ok self
  end.

Definition is_none {A} (o : option A) : bool :=
  match o with None => true | Some _ => false end.

(** [call(self, inputs, time=None, **kwargs)].  The step [time] is an
    integer; the conversion to a 32-bit tensor is the identity on the
    steps that a table can hold. *)
Definition call (self : t) (inputs : Inputs) (time : option Z)
  (kw : kwargs) : result tensor :=
  let* emb := embedding_call (_embedding_layer self) inputs kw in
  let mode := default (PyStr "embedding") (kw !! "mode"%string) in
  if is_none (_timing self) || negb (eq_str mode "embedding")
  then Ok emb
  else
    let* last_dim := index (shape emb) (-1) in
    let* _ := assert (Z.of_nat last_dim =? _embedding_dim self)%Z in
    let x_ndims := ndims emb in
    if (x_ndims =? 2) && is_none time then Raise ValueError
    else
      match _timing self with
      | Some Sinusoids =>
          let emb :=
            tf_scale (Fin (sqrt (IZR (_embedding_dim self)))) emb in
          add_sinusoids_timing_signal emb time 1 10000
      | Some Emb =>
          (* one position at a step, a range of them over a sequence *)
          let* position :=
            (if x_ndims =? 2 then
               match time with
               | Some tm => Ok (inl tm)
               | None => Raise TypeError
               end
             else if x_ndims =? 3 then
               let* length := index (shape emb) 1 in
               Ok (inr (map Z.of_nat (seq 0 length)))
             else Raise ValueError) in
          let* table := (match _position_emb_table self with
                         | Some tb => Ok tb
                         | None => Raise AttributeError
                         end) in
          let* position_emb :=
            (match position with
             | inl tm => tf_gather_row table tm
             | inr ps => tf_gather table ps
             end) in
          tf_add emb (tf_expand_dims position_emb 0)
      | None => Ok emb
      end.

End Layer.

End PositionEmbeddingWrapper.

(** ** The timing signal, as the documentation states it

    "We use a geometric sequence of timescales starting with
    min_timescale and ending with max_timescale.  The number of
    different timescales is equal to channels / 2.  For each timescale,
    we generate the two sinusoidal signals sin(timestep/timescale) and
    cos(timestep/timescale).  All of these sinusoids are concatenated in
    the channels dimension."  This is the element of the signal at one
    position and one channel, with the arithmetic of the code; it is
    compared below with what [add_sinusoids_timing_signal] adds. *)

Module TimingSignal.

Definition log_timescale_increment (lo hi : R) (channels : nat) : fval :=
  fdiv (Fin (ln (hi / lo))) (fsub (Fin (INR (channels / 2))) (Fin 1)).

Definition inv_timescale (lo hi : R) (channels k : nat) : fval :=
  fmul (Fin lo)
    (fexp (fmul (Fin (INR k))
             (fneg (log_timescale_increment lo hi channels)))).

(** The signal at [position], on channel [c]: the sines, then the
    cosines, then the padding. *)
Definition signal_at (lo hi : R) (channels : nat) (position : fval)
  (c : nat) : fval :=
  let n := channels / 2 in
  if c <? n then fsin (fmul position (inv_timescale lo hi channels c))
  else if c <? n + n
       then fcos (fmul position (inv_timescale lo hi channels (c - n)))
       else Fin 0.

End TimingSignal.

(** ** Concrete inputs, for the examples *)

Module Examples.

Import PrePostProcessingWrapper.

(** Collaborators for the examples: a state that counts the calls
    made, a normalisation and a dropout that return their argument. *)
Definition count_norm (_ : R) (x : tensor) : M nat tensor :=
  fun n => (Ok x, S n).
Definition count_dropout (x : tensor) (_ : R) : M nat tensor :=
  fun n => (Ok x, S n).
Definition zero_layer (x : tensor) (_ : list pyval) (_ : kwargs)
  : M nat tensor :=
  fun n => (Ok (tf_map (fun _ => Fin 0) x), S n).
Definition x12 : tensor := Tensor [1; 2] [Fin 1; Fin 2].
Definition inference : kwargs := {[ "is_training"%string := PyBool false ]}.

(** An embedding layer of dimension 2 that returns the tensor it is
    given, and wrappers around it. *)
Definition echo_embedding : PositionEmbeddingWrapper.embedding_layer_t tensor :=
  {| PositionEmbeddingWrapper.embedding_dim := 2;
     PositionEmbeddingWrapper.embedding_call := fun x _ => Ok x |}.

Definition wrapper (timing : option PositionEmbeddingWrapper.timing_t)
  : PositionEmbeddingWrapper.t tensor :=
  {| PositionEmbeddingWrapper._timing := timing;
     PositionEmbeddingWrapper._embedding_layer := echo_embedding;
     PositionEmbeddingWrapper._embedding_dim := 2;
     PositionEmbeddingWrapper._max_positions := 512;
     PositionEmbeddingWrapper._position_emb_table :=
       Some (Tensor [512; 2] (tabulate 1024 (fun _ => Fin 1)));
     PositionEmbeddingWrapper._table_initializer := fun _ => Fin 1 |}.

Definition x112 : tensor := Tensor [1; 1; 2] [Fin 1; Fin 2].

Definition logits_mode : kwargs := {[ "mode"%string := PyStr "linear" ]}.

Definition zeros : nat -> fval := fun _ => Fin 0.

Definition x111 : tensor := Tensor [1; 1; 1] [Fin 1].

(** A batch of no sequence. *)
Definition x011 : tensor := Tensor [0; 1; 1] [].

End Examples.

(** ** [tf.keras.layers.Dense], as [TransformerFFN] uses it

    A dense layer with a bias ([use_bias=True]) initialised to zeros
    (the default), and a kernel whose initial values are given (the
    draws of the default initializer).  Its weights are created by the
    first call, from the last dimension of the input. *)

Module Dense.

Record t := {
  units : Z;
  activation : option (fval -> fval);
  kernel_initializer : nat -> fval;
  kernel : option tensor;
  bias : option tensor
}.

Definition new (units : Z) (activation : option (fval -> fval))
  (kernel_initializer : nat -> fval) : t :=
  {| units := units;
     activation := activation;
     kernel_initializer := kernel_initializer;
     kernel := None;
     bias := None |}.

Definition build (self : t) (input_shape : list nat) : result t :=
  let* last_dim := index input_shape (-1) in
  let* k := add_weight [Z.of_nat last_dim; units self]
              (kernel_initializer self) in
  let* b := add_weight [units self] (fun _ => Fin 0) in
  Ok {| units := units self;
        activation := activation self;
        kernel_initializer := kernel_initializer self;
        kernel := Some k;
        bias := Some b |}.

(** The contraction of the last axis with the kernel, the bias, the
    activation. *)
Definition call (self : t) (inputs : tensor) : result tensor :=
  match kernel self, bias self with
  | Some k, Some b =>
      let* c := index (shape inputs) (-1) in
      match shape k with
      | [c'; u] =>
          if c =? c'
          then
            let rows := numel (removelast (shape inputs)) in
            let outputs :=
              Tensor (removelast (shape inputs) ++ [u])
                (matmul rows c u (data inputs) (data k)) in
            let* outputs := tf_add outputs b in
            Ok (match activation self with
                | Some f => tf_map f outputs
                | None => outputs
                end)
          else Raise ValueError
      | _ => Raise ValueError
      end
  | _, _ => Raise AttributeError
  end.

(** [layer(inputs)]: the input has at least two dimensions; the layer
    is built on its first call. *)
Definition keras_call (self : t) (inputs : tensor) : result (tensor * t) :=
  if ndims inputs <? 2 then Raise ValueError
  else
    let* self' := (match kernel self with
                   | Some _ => Ok self
                   | None => build self (shape inputs)
                   end) in
    let* out := call self' inputs in
    Ok (out, self').

End Dense.

(** ** [TransformerFFN]: the position-wise feed-forward network *)

Module TransformerFFN.

Import PrePostProcessingWrapper.

Section Layer.

Variable St : Type.

(** [tf.nn.dropout(y, rate=...)] *)
Variable dropout : tensor -> R -> M St tensor.

Record t := {
  _dropout_rate : R;
  _filter_size : Z;
  _output_size : Z;
  (** what [get_activation(activation)] resolved to *)
  _activation_fn : option (fval -> fval);
  (** the initial values of the two kernels *)
  _kernel_initializer1 : nat -> fval;
  _kernel_initializer2 : nat -> fval;
  _conv1 : option Dense.t;
  _conv2 : option Dense.t
}.

Definition init (filter_size output_size : Z) (dropout_rate : R)
  (activation_fn : option (fval -> fval))
  (kernel_initializer1 kernel_initializer2 : nat -> fval) : t :=
  {| _dropout_rate := dropout_rate;
     _filter_size := filter_size;
     _output_size := output_size;
     _activation_fn := activation_fn;
     _kernel_initializer1 := kernel_initializer1;
     _kernel_initializer2 := kernel_initializer2;
     _conv1 := None;
     _conv2 := None |}.

Definition build (self : t) : t :=
  {| _dropout_rate := _dropout_rate self;
     _filter_size := _filter_size self;
     _output_size := _output_size self;
     _activation_fn := _activation_fn self;
     _kernel_initializer1 := _kernel_initializer1 self;
     _kernel_initializer2 := _kernel_initializer2 self;
     _conv1 := Some (Dense.new (_filter_size self) (_activation_fn self)
                       (_kernel_initializer1 self));
     _conv2 := Some (Dense.new (_output_size self) None
                       (_kernel_initializer2 self)) |}.

Definition with_layers (self : t) (conv1 conv2 : Dense.t) : t :=
  {| _dropout_rate := _dropout_rate self;
     _filter_size := _filter_size self;
     _output_size := _output_size self;
     _activation_fn := _activation_fn self;
     _kernel_initializer1 := _kernel_initializer1 self;
     _kernel_initializer2 := _kernel_initializer2 self;
     _conv1 := Some conv1;
     _conv2 := Some conv2 |}.

(** Returns the output of TransformerFFN, and the layer with the
    weights that the two dense layers hold after the call. *)
Definition call (self : t) (inputs : tensor) (is_training : pyval)
  : M St (tensor * t) :=
  mbind (lift (match _conv1 self with
               | Some conv1 => Dense.keras_call conv1 inputs
               | None => Raise TypeError
               end)) (fun r1 =>
  mbind (mbind (lift (truthy is_training)) (fun b =>
         if b then dropout (fst r1) (_dropout_rate self)
         else ret (fst r1))) (fun output =>
  mbind (lift (match _conv2 self with
               | Some conv2 => Dense.keras_call conv2 output
               | None => Raise TypeError
               end)) (fun r2 =>
  ret (fst r2, with_layers self (snd r1) (snd r2))))).

(** [layer(inputs, is_training=...)]: Keras builds the layer on its
    first call. *)
Definition keras_call (self : t) (inputs : tensor) (is_training : pyval)
  : M St (tensor * t) :=
  call (match _conv1 self with
        | Some _ => self
        | None => build self
        end) inputs is_training.

End Layer.

End TransformerFFN.

(** ** The feed-forward network, as its documentation states it

    "Applies the position-wise feed-forward": the hidden unit [f] and
    the output unit [o] at one position, from the row of the input at
    that position and the two kernels (the biases start at zero). *)

Module FeedForward.

Definition activate (act : option (fval -> fval)) (v : fval) : fval :=
  match act with
  | Some f => f v
  | None => v
  end.

(** [row l]: the input at the position, channel [l]. *)
Definition hidden (act : option (fval -> fval)) (k1 : nat -> fval)
  (c F : nat) (row : nat -> fval) (f : nat) : fval :=
  activate act
    (fsum (map (fun l => fmul (row l) (k1 (l * F + f))) (seq 0 c))).

Definition output (act : option (fval -> fval)) (k1 k2 : nat -> fval)
  (c F O : nat) (row : nat -> fval) (o : nat) : fval :=
  fsum (map (fun f => fmul (hidden act k1 c F row f) (k2 (f * O + o)))
          (seq 0 F)).

(** The hidden activations of a 3-D input, as a tensor. *)
Definition hidden_tensor (act : option (fval -> fval)) (k1 : nat -> fval)
  (F : nat) (x : tensor) : tensor :=
  match shape x with
  | [a; b; c] =>
      Tensor [a; b; F]
        (tabulate (a * (b * F))
           (fun q => hidden act k1 c F
                       (fun l => elt x ((q / F) * c + l)) (q mod F)))
  | _ => x
  end.

End FeedForward.

Module MoreExamples.

Import MultiHeadDenseLayer Examples.

(** A layer of two heads for two projections, of widths 2 and 4. *)
Definition two_projections : MultiHeadDenseLayer.t :=
  {| _output_units := Node [Leaf 2%Z; Leaf 4%Z]; _num_heads := 2;
     _kernel_initializer := zeros; _bias_initializer := zeros;
     _use_bias := true; _is_output_transform := false;
     _activation_fn := None; _flatten_output_units := [2%Z; 4%Z];
     _kernel := None; _bias := None; built := false |}.

(** A layer that merges two heads into 3 output units. *)
Definition merge_heads : MultiHeadDenseLayer.t :=
  {| _output_units := Leaf 3%Z; _num_heads := 2;
     _kernel_initializer := zeros; _bias_initializer := zeros;
     _use_bias := true; _is_output_transform := true;
     _activation_fn := None; _flatten_output_units := [3%Z];
     _kernel := None; _bias := None; built := false |}.

End MoreExamples.

(** * Properties *)

(** ** Facts on the tensor runtime *)

Module TFFacts.

Lemma length_tabulate n f : length (tabulate n f) = n.
Proof. unfold tabulate. now rewrite length_map, length_seq. Qed.

Lemma nth_tabulate n f i d : i < n -> nth i (tabulate n f) d = f i.
Proof.
  intros Hi. unfold tabulate.
  rewrite (nth_indep _ d (f 0)) by now rewrite length_map, length_seq.
  rewrite map_nth, seq_nth by assumption. reflexivity.
Qed.

Lemma tabulate_ext n f g :
  (forall i, i < n -> f i = g i) -> tabulate n f = tabulate n g.
Proof.
  intros H. unfold tabulate. apply map_ext_in.
  intros i Hi. apply in_seq in Hi. apply H. lia.
Qed.

Lemma tabulate_nth (l : list fval) d :
  tabulate (length l) (fun i => nth i l d) = l.
Proof.
  unfold tabulate. induction l as [|a l IH]; [reflexivity|].
  simpl. f_equal. rewrite <- seq_shift, map_map. exact IH.
Qed.

Lemma fadd_0_r a : fadd a (Fin 0) = a.
Proof. destruct a; simpl; try reflexivity. f_equal. lra. Qed.

Lemma numel_pos_tail d s i : i < numel (d :: s) -> 0 < numel s.
Proof. simpl. intros H. destruct (numel s); lia. Qed.

(** Reading an operand of the output's own shape at an output index
    reads the element at the same offset. *)
Lemma ravel_bcoords_unravel s i :
  i < numel s -> ravel s (bcoords s (unravel s i)) = i.
Proof.
  revert i. induction s as [|d s IH]; intros i Hi.
  - simpl in *. lia.
  - pose proof (numel_pos_tail _ _ Hi) as Hp.
    cbn [unravel bcoords ravel].
    rewrite IH by (apply Nat.mod_upper_bound; lia).
    assert (Hq : i / numel s < d).
    { apply Nat.Div0.div_lt_upper_bound. simpl in Hi. lia. }
    destruct (d =? 1) eqn:E.
    + apply Nat.eqb_eq in E. subst d.
      assert (i / numel s = 0) by lia.
      pose proof (Nat.div_mod_eq i (numel s)). nia.
    + pose proof (Nat.div_mod_eq i (numel s)). nia.
Qed.

Lemma align_self s : align (length s) s = s.
Proof. unfold align. now rewrite Nat.sub_diag. Qed.

Lemma broadcast_dims_refl s : broadcast_dims s s = Ok s.
Proof.
  induction s as [|d s IH]; [reflexivity|].
  simpl. rewrite IH. simpl. now rewrite Nat.eqb_refl.
Qed.

Lemma broadcast_shape_refl s : broadcast_shape s s = Ok s.
Proof.
  unfold broadcast_shape. rewrite Nat.max_id, align_self.
  apply broadcast_dims_refl.
Qed.

(** Adding an all-zero tensor of the same shape changes nothing. *)
Lemma tf_add_zeros x z :
  wf x -> shape z = shape x -> length (data z) = length (data x) ->
  Forall (fun v => v = Fin 0) (data z) ->
  tf_add x z = Ok x.
Proof.
  intros Hx Hs Hl Hz. unfold wf in Hx. unfold tf_add, tf_binop.
  rewrite Hs, broadcast_shape_refl. simpl.
  destruct x as [s dx]. simpl in *. f_equal. f_equal.
  rewrite <- Hx. rewrite <- (tabulate_nth dx NaN) at 2.
  apply tabulate_ext. intros i Hi.
  unfold bget, elt. rewrite Hs. simpl.
  rewrite align_self, ravel_bcoords_unravel by lia.
  assert (Hzi : nth i (data z) NaN = Fin 0).
  { rewrite List.Forall_forall in Hz. apply Hz. apply nth_In. lia. }
  rewrite Hzi. apply fadd_0_r.
Qed.

Lemma index_last3 {A} (a b c : A) : index [a; b; c] (-1) = Ok c.
Proof. reflexivity. Qed.

Lemma existsb_lt_nonneg (l : list Z) (k : Z) :
  (k <= 0)%Z -> List.Forall (fun z => (0 <= z)%Z) l ->
  existsb (fun d => (d <? k)%Z) l = false.
Proof.
  intros Hk H. induction H as [|z l Hz _ IH]; [reflexivity|].
  simpl. rewrite IH. replace (z <? k)%Z with false; [reflexivity|].
  symmetry. apply Z.ltb_ge. lia.
Qed.

Lemma count_occ_nonneg (l : list Z) :
  List.Forall (fun z => (0 <= z)%Z) l -> count_occ Z.eq_dec l (-1)%Z = 0.
Proof.
  intros H. induction H as [|z l Hz _ IH]; [reflexivity|].
  simpl. destruct (Z.eq_dec z (-1)%Z); [lia | exact IH].
Qed.

(** A reshape to explicit sizes keeps the elements and succeeds
    exactly when the sizes multiply to the element count. *)
Lemma tf_reshape_explicit t target :
  List.Forall (fun z => (0 <= z)%Z) target ->
  tf_reshape t target
  = if (prodZ target =? Z.of_nat (numel (shape t)))%Z
    then Ok (Tensor (map Z.to_nat target) (data t))
    else Raise InvalidArgumentError.
Proof.
  intros H. unfold tf_reshape.
  rewrite existsb_lt_nonneg by (assumption || lia).
  now rewrite count_occ_nonneg.
Qed.

(** A kernel stored with the shape [[c, m]] already has the shape
    [[-1, m]]; with no column, [m = 0], the rows are still inferred when
    there is one. *)
Lemma tf_reshape_rows t c m :
  (0 <= m)%Z -> (0 < m)%Z \/ 0 < c -> shape t = [c; Z.to_nat m] ->
  tf_reshape t [(-1)%Z; m] = Ok t.
Proof.
  intros Hm Hc Hs. destruct t as [s dt]. simpl in Hs. subst s.
  unfold tf_reshape. cbn [shape data existsb count_occ List.filter map].
  replace (m <? -1)%Z with false by (symmetry; apply Z.ltb_ge; lia).
  replace (-1 <? -1)%Z with false by reflexivity.
  replace (0 <? -1)%Z with false by reflexivity.
  replace (0 =? -1)%Z with false by reflexivity.
  replace (-1 =? -1)%Z with true by reflexivity.
  replace (m =? -1)%Z with false by (symmetry; apply Z.eqb_neq; lia).
  destruct (Z.eq_dec (-1)%Z (-1)%Z) as [_|]; [|congruence].
  destruct (Z.eq_dec m (-1)%Z) as [|_]; [lia|].
  cbn [orb numel fold_right].
  destruct (Z.eqb_spec 0 m) as [<-|Hm0].
  - (* no column *)
    destruct Hc as [Hc|Hc]; [lia|].
    replace (Z.to_nat 0) with 0 by reflexivity.
    replace (Z.of_nat 0) with 0%Z by reflexivity.
    replace (0 <? 0)%Z with false by reflexivity.
    replace (0 <? Z.of_nat c)%Z with true by (symmetry; apply Z.ltb_lt; lia).
    replace (0 =? Z.of_nat c)%Z with false by (symmetry; apply Z.eqb_neq; lia).
    replace (0 =? 0)%Z with true by reflexivity.
    cbn [orb andb negb prodZ fold_right].
    rewrite Z.div_1_r.
    replace (Z.of_nat c * 1 * (0 * 1) =? Z.of_nat (c * (0 * 1)))%Z with true
      by (symmetry; apply Z.eqb_eq; lia).
    cbn [map]. replace (Z.of_nat c * 1)%Z with (Z.of_nat c) by lia.
    now rewrite Nat2Z.id.
  - replace (0 <? m)%Z with true by (symmetry; apply Z.ltb_lt; lia).
    cbn [orb andb negb prodZ fold_right].
    assert (HN : Z.of_nat (c * (Z.to_nat m * 1)) = (Z.of_nat c * (m * 1))%Z)
      by lia.
    rewrite HN, Z_div_mult by lia.
    replace (m * 1 * Z.of_nat c =? Z.of_nat c * (m * 1))%Z with true
      by (symmetry; apply Z.eqb_eq; lia).
    rewrite Z.eqb_refl. cbn [negb map].
    now rewrite Nat2Z.id.
Qed.

End TFFacts.

(** ** [PrePostProcessingWrapper] *)

Module PrePostProcessingWrapperSpec.

Import PrePostProcessingWrapper Examples.

Section Facts.

Variable St : Type.
Variable LayerNormalization : R -> tensor -> M St tensor.
Variable dropout : tensor -> R -> M St tensor.

(** C2: with [is_training] among the keyword arguments, a call
    normalises the input, runs the inner layer on the normalised
    value with every positional and keyword argument of the caller,
    applies dropout to the layer's output when [is_training] holds,
    and returns the sum of the original input and that output. *)
Theorem call_norm_layer_dropout_add
  layer rate inputs args (kw : kwargs) v b s0 y1 s1 y2 s2 y3 s3 :
  kw !! "is_training"%string = Some v ->
  LayerNormalization (1 / 1000000)%R inputs s0 = (Ok y1, s1) ->
  layer y1 args kw s1 = (Ok y2, s2) ->
  truthy v = Ok b ->
  (if b then dropout y2 rate s2 else (Ok y2, s2)) = (Ok y3, s3) ->
  call dropout (build LayerNormalization (init layer rate))
    inputs args kw s0
  = (tf_add inputs y3, s3).
Proof.
  intros Hkw Hn Hl Ht Hd.
  unfold call, mbind, lift, build, init. cbn.
  rewrite Hkw, Hn, Hl, Ht.
  destruct b; [rewrite Hd | unfold ret; injection Hd as -> ->];
    reflexivity.
Qed.

(** C8: outside training, when the inner layer returns zeros of the
    input's shape, the call returns its input. *)
Theorem call_zero_layer_identity
  layer rate inputs args (kw : kwargs) v s0 y1 s1 z s2 :
  kw !! "is_training"%string = Some v ->
  truthy v = Ok false ->
  LayerNormalization (1 / 1000000)%R inputs s0 = (Ok y1, s1) ->
  layer y1 args kw s1 = (Ok z, s2) ->
  wf inputs -> wf z -> shape z = shape inputs ->
  Forall (fun e => e = Fin 0) (data z) ->
  call dropout (build LayerNormalization (init layer rate))
    inputs args kw s0 = (Ok inputs, s2).
Proof.
  intros Hkw Ht Hn Hl Hx Hz Hs H0.
  unfold call, mbind, lift, build, init, ret. cbn.
  rewrite Hkw, Hn, Hl, Ht.
  rewrite TFFacts.tf_add_zeros; try assumption; [reflexivity|].
  unfold wf in *. congruence.
Qed.

(** C9: without [is_training] among the keyword arguments the call
    raises [KeyError] and leaves the state as it was: neither the
    normalisation, nor the inner layer, nor dropout has run. *)
Theorem call_without_is_training
  (self : t St) inputs args (kw : kwargs) s :
  kw !! "is_training"%string = None ->
  call dropout self inputs args kw s = (Raise KeyError, s).
Proof.
  intros Hkw. unfold call, mbind, lift. now rewrite Hkw.
Qed.

End Facts.

Lemma call_norm_layer_dropout_add_witness :
  call count_dropout (build count_norm (init zero_layer (1 / 10)%R))
    x12 [] inference 0
  = (tf_add x12 (tf_map (fun _ => Fin 0) x12), 2).
Proof.
  eapply call_norm_layer_dropout_add
    with (v := PyBool false) (b := false) (y1 := x12) (s1 := 1);
    reflexivity.
Defined.

Lemma call_zero_layer_identity_witness :
  call count_dropout (build count_norm (init zero_layer (1 / 10)%R))
    x12 [] inference 0
  = (Ok x12, 2).
Proof.
  eapply call_zero_layer_identity
    with (v := PyBool false) (y1 := x12) (s1 := 1);
    try reflexivity.
  repeat constructor.
Defined.

Lemma call_without_is_training_witness :
  call count_dropout (build count_norm (init zero_layer (1 / 10)%R))
    x12 [] ∅ 0
  = (Raise KeyError, 0).
Proof.
  apply call_without_is_training. reflexivity.
Defined.

End PrePostProcessingWrapperSpec.

(** ** [PositionEmbeddingWrapper.call] *)

Module PositionEmbeddingWrapperSpec.

Import PositionEmbeddingWrapper Examples.

(** On a 3-D tensor the timing signal does not read [time]. *)
Lemma add_sinusoids_3d_time x time lo hi :
  ndims x = 3 ->
  add_sinusoids_timing_signal x time lo hi
  = add_sinusoids_timing_signal x None lo hi.
Proof.
  unfold ndims. intros H.
  destruct x as [[|a [|b [|c [|d s]]]] dx]; simpl in H; try discriminate.
  reflexivity.
Qed.

Section Facts.

Variable Inputs : Type.
Implicit Types (self : t Inputs) (kw : kwargs).

(** C5: when the timing is [None], or the keyword argument [mode]
    is given and is not ["embedding"], the call returns what the
    embedding layer returned. *)
Theorem call_returns_embedding self inputs time kw emb :
  embedding_call (_embedding_layer self) inputs kw = Ok emb ->
  _timing self = None
  \/ (exists m, kw !! "mode"%string = Some m /\ m <> PyStr "embedding") ->
  call self inputs time kw = Ok emb.
Proof.
  intros He Hm. unfold call. rewrite He. cbn.
  destruct Hm as [-> | (m & -> & Hm)]; [reflexivity|].
  cbn. destruct (_timing self); cbn; [|reflexivity].
  destruct m as [| | |s|]; cbn; try reflexivity.
  destruct (String.eqb s "embedding") eqn:E; [|reflexivity].
  apply String.eqb_eq in E. congruence.
Qed.

(** C6: with a timing, in embedding mode, a call whose embedding is
    2-D and whose [time] is [None] raises; a call whose embedding is
    3-D returns the same with and without [time]. *)
Theorem call_time self inputs kw emb :
  embedding_call (_embedding_layer self) inputs kw = Ok emb ->
  (_timing self <> None ->
   default (PyStr "embedding") (kw !! "mode"%string) = PyStr "embedding" ->
   ndims emb = 2 ->
   raises (call self inputs None kw))
  /\ (ndims emb = 3 ->
      forall time, call self inputs time kw = call self inputs None kw).
Proof.
  intros He. split.
  - intros Ht Hm Hn. unfold call. rewrite He, Hm. cbn.
    destruct (_timing self) as [tm|]; [|congruence]. cbn.
    destruct (index (shape emb) (-1)) as [d|e]; cbn; [|now exists e].
    destruct (Z.of_nat d =? _embedding_dim self)%Z; cbn;
      [|now exists AssertionError].
    rewrite Hn. cbn. now exists ValueError.
  - intros Hn time. unfold call. rewrite He. cbn.
    destruct (is_none (_timing self) || _)%bool; [reflexivity|].
    destruct (index (shape emb) (-1)) as [d|e]; cbn; [|reflexivity].
    destruct (assert _); cbn; [|reflexivity].
    rewrite Hn. cbn.
    destruct (_timing self) as [[|]|]; [| |reflexivity].
    + apply add_sinusoids_3d_time. exact Hn.
    + reflexivity.
Qed.

End Facts.

Lemma call_returns_embedding_witness :
  call (wrapper (Some Sinusoids)) x12 None logits_mode = Ok x12.
Proof.
  apply call_returns_embedding; [reflexivity|].
  right. exists (PyStr "linear"). split; [reflexivity|discriminate].
Defined.

Lemma call_time_witness :
  raises (call (wrapper (Some Emb)) x12 None ∅)
  /\ call (wrapper (Some Emb)) x112 (Some 5%Z) ∅
     = call (wrapper (Some Emb)) x112 None ∅.
Proof.
  split.
  - apply (proj1 (call_time (wrapper (Some Emb)) x12 ∅ eq_refl));
      [discriminate | reflexivity | reflexivity].
  - apply (proj2 (call_time (wrapper (Some Emb)) x112 ∅ eq_refl)).
    reflexivity.
Defined.

End PositionEmbeddingWrapperSpec.

(** ** [MultiHeadDenseLayer] *)

Module MultiHeadDenseLayerSpec.

Import MultiHeadDenseLayer Examples TFFacts.

(** *** The runtime on the shapes of the layer *)

(** The stored kernel of split mode already has the shape [[-1, m]]. *)
Lemma tf_reshape_infer_rows t c m :
  (0 < m)%Z -> shape t = [c; Z.to_nat m] ->
  tf_reshape t [(-1)%Z; m] = Ok t.
Proof.
  intros Hm Hs. apply tf_reshape_rows with c; [lia | now left | exact Hs].
Qed.

Lemma add_weight_ok s init :
  List.Forall (fun z => (0 <= z)%Z) s ->
  add_weight s init
  = Ok (Tensor (map Z.to_nat s) (tabulate (numel (map Z.to_nat s)) init)).
Proof.
  intros H. unfold add_weight.
  now rewrite existsb_lt_nonneg by (assumption || lia).
Qed.

(** Adding a bias vector to a rank-3 tensor keeps the shape. *)
Lemma tf_add_bias_shape x bias a b n :
  shape x = [a; b; n] -> shape bias = [n] ->
  exists y, tf_add x bias = Ok y /\ shape y = [a; b; n].
Proof.
  intros Hx Hb. unfold tf_add, tf_binop, broadcast_shape.
  rewrite Hx, Hb. cbn.
  rewrite Nat.eqb_refl. cbn.
  destruct (b =? 1); cbn; destruct (a =? 1); cbn; eexists; split; reflexivity.
Qed.

Lemma sumZ_nonneg l :
  List.Forall (fun z => (0 <= z)%Z) l -> (0 <= sumZ l)%Z.
Proof.
  intros H. induction H; simpl; lia.
Qed.

Lemma split_sizes_ok d sizes :
  List.Forall (fun z => (0 <= z)%Z) sizes ->
  sumZ sizes = Z.of_nat d ->
  split_sizes d sizes = Ok (map Z.to_nat sizes).
Proof.
  intros H Hd. unfold split_sizes.
  rewrite existsb_lt_nonneg by (assumption || lia).
  rewrite count_occ_nonneg by assumption.
  now rewrite Hd, Z.eqb_refl.
Qed.

Lemma shape_slice_last t a b d off n :
  shape t = [a; b; d] -> shape (slice_last t off n) = [a; b; n].
Proof. intros H. unfold slice_last. now rewrite H. Qed.

(** *** The first call in split mode, up to the reshape into heads *)

#[local] Arguments sumZ : simpl never.
#[local] Arguments numel : simpl never.

Lemma keras_call_split units h kinit binit act ub self0 x a b c :
  init units h kinit binit act ub false = Ok self0 ->
  List.Forall (fun z => (0 <= z)%Z) (flatten units) ->
  (0 < sumZ (flatten units))%Z ->
  shape x = [a; b; c] ->
  exists self' output,
    _num_heads self' = h
    /\ shape output = [a; b; Z.to_nat (sumZ (flatten units))]
    /\ keras_call self0 x
       = let* outs := map_structure2 (split_heads self')
                        (split_from output 0 (map Z.to_nat (flatten units)))
                        (flatten units) in
         let* packed := pack_sequence_as units
                          (match act with
                           | Some f => map (tf_map f) outs
                           | None => outs
                           end) in
         Ok (packed, self').
Proof.
  intros Hinit Hnn Hsum Hx.
  destruct x as [sx dx]. simpl in Hx. subst sx.
  unfold init in Hinit. cbn in Hinit. injection Hinit as <-.
  remember (keras_call _ _) as lhs eqn:E.
  unfold keras_call, build, compat_kernel_shape, bias_shape in E.
  cbn in E. rewrite index_last3 in E. cbn in E.
  rewrite add_weight_ok in E by (repeat constructor; lia). cbn in E.
  rewrite Nat2Z.id in E.
  set (n := Z.to_nat (sumZ (flatten units))) in *.
  destruct ub.
  - rewrite add_weight_ok in E by (repeat constructor; lia). cbn in E.
    unfold call, kernel_shape in E. cbn in E.
    rewrite (tf_reshape_infer_rows _ (c := c)) in E
      by (assumption || reflexivity).
    cbn in E. rewrite Nat.eqb_refl in E. cbn in E.
    match type of E with
    | context [tf_add ?p ?q] =>
        destruct (@tf_add_bias_shape p q a b n eq_refl eq_refl)
          as (y & Hy & Hys)
    end.
    rewrite Hy in E. cbn in E.
    unfold tf_split in E. rewrite Hys in E.
    rewrite split_sizes_ok in E by (assumption || (cbn; subst n; lia)).
    cbn in E.
    match type of E with context [split_heads ?s] => exists s end.
    exists y. split; [reflexivity|]. split; [exact Hys|].
    rewrite E. destruct (map_structure2 _ _ _); cbn; [|reflexivity].
    destruct (pack_sequence_as _ _); reflexivity.
  - unfold call, kernel_shape in E. cbn in E.
    rewrite (tf_reshape_infer_rows _ (c := c)) in E
      by (assumption || reflexivity).
    cbn in E. rewrite Nat.eqb_refl in E. cbn in E.
    unfold tf_split in E. cbn in E.
    rewrite split_sizes_ok in E by (assumption || (cbn; subst n; lia)).
    cbn in E.
    match type of E with context [split_heads ?s] => exists s end.
    match type of E with context [split_from ?o] => exists o end.
    split; [reflexivity|]. split; [reflexivity|].
    rewrite E. destruct (map_structure2 _ _ _); cbn; [|reflexivity].
    destruct (pack_sequence_as _ _); reflexivity.
Qed.

Lemma sumZ_single n : sumZ [n] = n.
Proof. unfold sumZ. simpl. lia. Qed.

Lemma sumZ_pos h l :
  (0 < h)%Z ->
  List.Forall (fun z => (0 <= z)%Z) l ->
  List.Exists (fun z => (z mod h <> 0)%Z) l ->
  (0 < sumZ l)%Z.
Proof.
  intros Hh Hnn Hex. induction Hnn as [|z l Hz Hl IH].
  - inversion Hex.
  - unfold sumZ. simpl. fold (sumZ l).
    pose proof (sumZ_nonneg Hl).
    inversion Hex as [? ? Hbad | ? ? Htl]; subst.
    + assert (z <> 0)%Z by (intros ->; now rewrite Z.mod_0_l in Hbad by lia).
      lia.
    + specialize (IH Htl). lia.
Qed.

(** *** The reshape into heads *)

Lemma split_heads_indivisible self t a b n :
  (0 < _num_heads self)%Z -> (0 <= n)%Z ->
  (n mod _num_heads self <> 0)%Z ->
  shape t = [a; b; Z.to_nat n] -> 0 < a -> 0 < b ->
  raises (split_heads self t n).
Proof.
  intros Hh Hn Hbad Hs Ha Hb. unfold split_heads, floordiv.
  replace (_num_heads self =? 0)%Z with false
    by (symmetry; apply Z.eqb_neq; lia).
  cbn. rewrite Hs. cbn.
  pose proof (Z.div_pos n (_num_heads self) Hn Hh) as Hq.
  rewrite tf_reshape_explicit by (repeat constructor; lia).
  rewrite Hs.
  replace (_ =? _)%Z with false; [now exists InvalidArgumentError|].
  symmetry. apply Z.eqb_neq. unfold prodZ, numel. cbn [fold_right].
  pose proof (Z.div_mod n (_num_heads self) ltac:(lia)) as Hdm.
  intros Heq.
  assert (Hc : ((Z.of_nat a * Z.of_nat b)
                * (_num_heads self * (n / _num_heads self))
                = (Z.of_nat a * Z.of_nat b) * n)%Z) by lia.
  apply Z.mul_reg_l in Hc; lia.
Qed.

Lemma split_heads_divisible self t a b n :
  (0 < _num_heads self)%Z -> (0 <= n)%Z ->
  (n mod _num_heads self = 0)%Z ->
  shape t = [a; b; Z.to_nat n] ->
  split_heads self t n
  = Ok (Tensor [a; b; Z.to_nat (_num_heads self);
                Z.to_nat (n / _num_heads self)] (data t)).
Proof.
  intros Hh Hn Hdiv Hs. unfold split_heads, floordiv.
  replace (_num_heads self =? 0)%Z with false
    by (symmetry; apply Z.eqb_neq; lia).
  cbn. rewrite Hs. cbn.
  pose proof (Z.div_pos n (_num_heads self) Hn Hh) as Hq.
  rewrite tf_reshape_explicit by (repeat constructor; lia).
  rewrite Hs.
  replace (_ =? _)%Z with true.
  - cbn. now rewrite !Nat2Z.id.
  - symmetry. apply Z.eqb_eq. unfold prodZ, numel. cbn [fold_right].
    pose proof (Z.div_mod n (_num_heads self) ltac:(lia)) as Hdm.
    assert (_num_heads self * (n / _num_heads self) = n)%Z by lia.
    nia.
Qed.

Lemma map_structure2_split_raises self t a b d units :
  (0 < _num_heads self)%Z ->
  List.Forall (fun z => (0 <= z)%Z) units ->
  List.Exists (fun z => (z mod _num_heads self <> 0)%Z) units ->
  shape t = [a; b; d] -> 0 < a -> 0 < b ->
  forall off,
    raises (map_structure2 (split_heads self)
              (split_from t off (map Z.to_nat units)) units).
Proof.
  intros Hh Hnn Hex Hs Ha Hb.
  induction Hnn as [|z l Hz Hl IH]; intros off.
  - inversion Hex.
  - cbn [map split_from map_structure2].
    inversion Hex as [? ? Hbad | ? ? Htl]; subst.
    + destruct (@split_heads_indivisible self
                  (slice_last t off (Z.to_nat z)) a b z Hh Hz Hbad)
        as (e & ->);
        [eapply shape_slice_last; eassumption | assumption.. |].
      now exists e.
    + destruct (split_heads self _ z) as [y|e]; cbn; [|now exists e].
      destruct (IH Htl (off + Z.to_nat z)) as (e & ->).
      now exists e.
Qed.

(** *** Construction *)

(** C4: with a nested [output_units], construction in
    output-transform mode raises. *)
Theorem init_nested_output_transform
  children h kinit binit act ub :
  init (Node children) h kinit binit act ub true = Raise AssertionError.
Proof. reflexivity. Qed.

(** C1, as stated, fails: a layer of 2 heads and 3 output units is
    constructed in output-transform mode; and in split mode its first
    call, on a batch that holds no element, returns. *)
Lemma init_indivisible_output_transform :
  (3 mod 2 <> 0)%Z
  /\ ~ raises (init (Leaf 3%Z) 2 zeros zeros None true true)
  /\ exists self,
       init (Leaf 3%Z) 2 zeros zeros None true false = Ok self
       /\ ~ raises (keras_call self x011).
Proof.
  split; [discriminate|]. split.
  - intros (e & He). discriminate He.
  - eexists. split; [reflexivity|]. intros (e & He).
    vm_compute in He. discriminate He.
Qed.

(** C1, amended: construction checks no divisibility, and succeeds in
    both modes (in output-transform mode, for a scalar
    [output_units]); in split mode, when a width is not a multiple of
    [num_heads], the first call on a 3-D input that has elements
    raises. *)
Theorem indivisible_units
  units h kinit binit act ub ot x a b c :
  (0 < h)%Z ->
  List.Forall (fun z => (0 <= z)%Z) (flatten units) ->
  List.Exists (fun z => (z mod h <> 0)%Z) (flatten units) ->
  (ot = true -> is_nested units = false) ->
  shape x = [a; b; c] -> 0 < a -> 0 < b ->
  exists self,
    init units h kinit binit act ub ot = Ok self
    /\ (ot = false -> raises (keras_call self x)).
Proof.
  intros Hh Hnn Hex Hot Hx Ha Hb.
  destruct ot.
  - unfold init. rewrite (Hot eq_refl). cbn.
    eexists. split; [reflexivity | discriminate].
  - eexists. split; [reflexivity|]. intros _.
    destruct (@keras_call_split units h kinit binit act ub _ x a b c
                eq_refl Hnn (sumZ_pos Hh Hnn Hex) Hx)
      as (self' & output & Hheads & Hout & ->).
    rewrite <- Hheads in Hh, Hex.
    destruct (@map_structure2_split_raises self' output a b _ _
                Hh Hnn Hex Hout Ha Hb 0)
      as (e & ->).
    now exists e.
Qed.

Lemma indivisible_units_witness :
  exists self,
    init (Leaf 3%Z) 2 zeros zeros None true false = Ok self
    /\ (false = false -> raises (keras_call self x111)).
Proof.
  apply (@indivisible_units (Leaf 3%Z) 2%Z zeros zeros None true false
           x111 1 1 1); try (reflexivity || lia || discriminate).
  - repeat constructor. discriminate.
  - left. discriminate.
Defined.

End MultiHeadDenseLayerSpec.

(** ** [PositionEmbeddingWrapper.add_sinusoids_timing_signal] *)

Module TimingSignalFacts.

Import PositionEmbeddingWrapper TimingSignal Examples TFFacts.

#[local] Arguments numel : simpl never.
#[local] Arguments Nat.div : simpl never.
#[local] Arguments Nat.modulo : simpl never.

Lemma map_tabulate (f : fval -> fval) n g :
  map f (tabulate n g) = tabulate n (fun i => f (g i)).
Proof. unfold tabulate. now rewrite map_map. Qed.

Lemma range_float_tabulate n :
  range_float n = tabulate n (fun i => Fin (INR i)).
Proof. reflexivity. Qed.

Lemma div_row l c C : c < C -> (l * C + c) / C = l.
Proof.
  intros H. symmetry. apply (Nat.div_unique _ _ _ c); lia.
Qed.

Lemma mod_row l c C : c < C -> (l * C + c) mod C = c.
Proof.
  intros H. symmetry. apply (Nat.mod_unique _ _ l); lia.
Qed.

Lemma numel1 a : numel [a] = a.
Proof. unfold numel. simpl. lia. Qed.

Lemma numel2 a b : numel [a; b] = a * b.
Proof. unfold numel. simpl. lia. Qed.

Lemma numel3 a b c : numel [a; b; c] = a * (b * c).
Proof. unfold numel. simpl. lia. Qed.

Lemma div_lt_rows i L n : i < L * n -> i / n < L.
Proof.
  intros H. apply Nat.Div0.div_lt_upper_bound. lia.
Qed.

Lemma mod_lt_cols i L n : i < L * n -> i mod n < n.
Proof.
  intros H. apply Nat.mod_upper_bound. destruct n; lia.
Qed.

Lemma broadcast_shape_outer L n :
  broadcast_shape [L; 1] [1; n] = Ok [L; n].
Proof.
  unfold broadcast_shape. cbn -[Nat.eqb].
  destruct (1 =? n) eqn:E; cbn -[Nat.eqb].
  - apply Nat.eqb_eq in E. subst n. now destruct (L =? 1).
  - now destruct (L =? 1).
Qed.

(** The product of a column [[L, 1]] and a row [[1, n]]. *)
Lemma tf_mul_outer L n p q :
  tf_mul (Tensor [L; 1] p) (Tensor [1; n] q)
  = Ok (Tensor [L; n]
          (tabulate (L * n)
             (fun i => fmul (nth (i / n) p NaN) (nth (i mod n) q NaN)))).
Proof.
  unfold tf_mul, tf_binop. cbn [shape].
  rewrite broadcast_shape_outer. cbn [bind]. f_equal. f_equal.
  rewrite numel2.
  apply tabulate_ext. intros i Hi.
  unfold bget, elt. cbn -[Nat.eqb]. rewrite numel1. unfold numel.
  cbn -[Nat.eqb].
  pose proof (@div_lt_rows i L n Hi). pose proof (@mod_lt_cols i L n Hi).
  rewrite !Nat.div_1_r, !Nat.mul_1_r, !Nat.add_0_r.
  rewrite Nat.eqb_refl. cbn [Nat.mul Nat.add].
  f_equal; f_equal.
  - destruct (Nat.eqb_spec L 1); [subst L|reflexivity].
    apply Nat.lt_1_r in H. congruence.
  - destruct (Nat.eqb_spec n 1); [subst n|reflexivity].
    apply Nat.lt_1_r in H0. congruence.
Qed.

Lemma broadcast_shape_batch B L C :
  broadcast_shape [B; L; C] [1; L; C] = Ok [B; L; C].
Proof.
  unfold broadcast_shape. cbn -[Nat.eqb].
  rewrite !Nat.eqb_refl. cbn -[Nat.eqb].
  now destruct (B =? 1).
Qed.

(** Adding a tensor of shape [[1, L, C]] adds it to every batch
    element. *)
Lemma tf_add_batch B L C dx sg :
  shape sg = [1; L; C] ->
  tf_add (Tensor [B; L; C] dx) sg
  = Ok (Tensor [B; L; C]
          (tabulate (B * (L * C))
             (fun i => fadd (nth i dx NaN) (elt sg (i mod (L * C)))))).
Proof.
  intros Hs. unfold tf_add, tf_binop. cbn [shape]. rewrite Hs.
  rewrite broadcast_shape_batch. cbn [bind]. f_equal. f_equal.
  rewrite numel3. apply tabulate_ext. intros i Hi.
  unfold bget, elt. cbn [shape length]. rewrite Hs.
  unfold align. cbn [length Nat.sub repeat app].
  rewrite ravel_bcoords_unravel by (rewrite numel3; exact Hi).
  f_equal. f_equal.
  cbn [unravel bcoords ravel]. rewrite Nat.eqb_refl.
  change (0 * numel [L; C]) with 0. cbn [Nat.add].
  rewrite numel2.
  apply (ravel_bcoords_unravel [L; C]). rewrite numel2.
  apply Nat.mod_upper_bound. destruct (L * C); lia.
Qed.

Lemma inv_timescales_data lo hi C :
  map (fun v => fmul (Fin lo) v)
    (map fexp
       (map (fun v => fmul v (fneg (log_timescale_increment lo hi C)))
          (range_float (C / 2))))
  = tabulate (C / 2) (inv_timescale lo hi C).
Proof.
  rewrite range_float_tabulate, !map_tabulate. reflexivity.
Qed.

(** The elements of the sum, on a 3-D input: each is the input's
    element plus the documented signal at its position and channel. *)
Lemma add_sinusoids_3d B L C dx time lo hi :
  lo <> 0%R -> (0 < hi / lo)%R ->
  add_sinusoids_timing_signal (Tensor [B; L; C] dx) time lo hi
  = Ok (Tensor [B; L; C]
          (tabulate (B * (L * C))
             (fun i => fadd (nth i dx NaN)
                         (signal_at lo hi C
                            (Fin (INR ((i mod (L * C)) / C)))
                            ((i mod (L * C)) mod C))))).
Proof.
  intros Hlo Hratio. unfold add_sinusoids_timing_signal.
  cbn [shape]. rewrite index_last3. cbn [bind fst snd].
  unfold truediv. destruct (Req_dec_T lo 0) as [|_]; [contradiction|].
  cbn [bind]. unfold math_log.
  destruct (Rlt_dec 0 (hi / lo)) as [_|]; [|contradiction].
  cbn [bind].
  unfold tf_expand_dims, tf_scale, tf_map.
  cbn [shape data firstn skipn app].
  fold (log_timescale_increment lo hi C).
  rewrite inv_timescales_data, tf_mul_outer. cbn [bind shape data].
  unfold tf_concat_axis1. cbn [shape]. rewrite Nat.eqb_refl.
  cbn [bind]. unfold tf_pad_right. cbn [shape bind].
  unfold ndims. cbn [shape length Nat.eqb].
  set (n := C / 2).
  assert (HC : n + n + C mod 2 = C).
  { subst n. pose proof (Nat.div_mod_eq C 2). lia. }
  rewrite tf_reshape_explicit by (repeat constructor; lia).
  cbn [shape]. rewrite HC.
  replace (_ =? _)%Z with true
    by (symmetry; apply Z.eqb_eq; rewrite numel2; unfold prodZ;
        cbn [fold_right]; lia).
  cbn [map]. rewrite !Nat2Z.id. change (Z.to_nat 1) with 1.
  cbn [bind data].
  rewrite tf_add_batch by reflexivity.
  f_equal. f_equal. apply tabulate_ext. intros i Hi. f_equal.
  unfold elt. cbn [data].
  assert (HLC : 0 < L * C) by (destruct (L * C); lia).
  set (j := i mod (L * C)).
  assert (Hj : j < L * C) by (apply Nat.mod_upper_bound; lia).
  pose proof (@div_lt_rows j L C Hj) as Hrow.
  pose proof (@mod_lt_cols j L C Hj) as Hcol.
  rewrite nth_tabulate by exact Hj.
  unfold signal_at. fold n.
  set (row := j / C) in *. set (col := j mod C) in *.
  destruct (Nat.ltb_spec col (n + n)) as [Hlt|Hge].
  - rewrite nth_tabulate by nia.
    rewrite div_row, mod_row by assumption.
    destruct (Nat.ltb_spec col n) as [Hs|Hc].
    + rewrite map_tabulate, nth_tabulate by nia.
      rewrite div_row, mod_row by assumption.
      rewrite range_float_tabulate, !nth_tabulate by lia. reflexivity.
    + rewrite map_tabulate, nth_tabulate by nia.
      rewrite div_row, mod_row by lia.
      rewrite range_float_tabulate, !nth_tabulate by lia. reflexivity.
  - destruct (Nat.ltb_spec col n); [lia|reflexivity].
Qed.

(** *** The signal at position 0 *)

Lemma fmul_nan_r a : fmul a NaN = NaN.
Proof. now destruct a. Qed.

(** With one timescale the increment divides by [1.0 - 1]: it is
    infinite, and every timescale is NaN. *)
Lemma inv_timescale_one lo hi C k :
  C / 2 = 1 -> (0 < ln (hi / lo))%R -> k = 0 ->
  inv_timescale lo hi C k = NaN.
Proof.
  intros HC Hln ->. unfold inv_timescale, log_timescale_increment.
  rewrite HC. cbn [INR fsub fneg fadd fdiv].
  destruct (Req_dec_T _ 0) as [_|Hne]; [|exfalso; apply Hne; lra].
  unfold signed_inf.
  destruct (Rlt_dec 0 (ln (hi / lo))) as [_|]; [|contradiction].
  cbn [fneg fmul]. unfold signed_inf.
  destruct (Rlt_dec 0 0) as [H0|_]; [exfalso; lra|].
  reflexivity.
Qed.

Lemma signal_at_one_timescale lo hi C position c :
  C / 2 = 1 -> (0 < ln (hi / lo))%R -> c < 2 ->
  signal_at lo hi C position c = NaN.
Proof.
  intros HC Hln Hc. unfold signal_at. rewrite HC.
  destruct (Nat.ltb_spec c 1).
  - rewrite inv_timescale_one by (assumption || lia).
    now rewrite fmul_nan_r.
  - destruct (Nat.ltb_spec c (1 + 1)); [|lia].
    rewrite inv_timescale_one by (assumption || lia).
    now rewrite fmul_nan_r.
Qed.

(** With any other number of timescales, each of them is finite. *)
Lemma inv_timescale_finite lo hi C k :
  C / 2 <> 1 -> exists r, inv_timescale lo hi C k = Fin r.
Proof.
  intros HC. unfold inv_timescale, log_timescale_increment.
  cbn [fsub fneg fadd fdiv].
  destruct (Req_dec_T _ 0) as [Heq|_].
  - exfalso. apply HC. apply INR_eq. cbn [INR]. lra.
  - cbn [fneg fmul fexp]. eexists. reflexivity.
Qed.

Lemma signal_at_position_0 lo hi C c :
  C / 2 <> 1 ->
  signal_at lo hi C (Fin 0) c
  = if c <? C / 2 then Fin 0
    else if c <? C / 2 + C / 2 then Fin 1 else Fin 0.
Proof.
  intros HC. unfold signal_at.
  destruct (c <? C / 2).
  - destruct (@inv_timescale_finite lo hi C c HC) as (r & ->).
    cbn [fmul fsin]. now rewrite Rmult_0_l, sin_0.
  - destruct (c <? C / 2 + C / 2); [|reflexivity].
    destruct (@inv_timescale_finite lo hi C (c - C / 2) HC) as (r & ->).
    cbn [fmul fcos]. now rewrite Rmult_0_l, cos_0.
Qed.

Lemma ln_10000_pos : (0 < ln (10000 / 1))%R.
Proof. rewrite <- ln_1. apply ln_increasing; lra. Qed.

(** *** The claims *)

(** C10: on a 3-D input the result has the input's shape, and its
    element at batch [b], position [l], channel [c] is the input's
    element plus [signal_at lo hi C l c], a value that depends on the
    timescale bounds, the channel count, the position and the channel
    only. *)
Theorem add_sinusoids_same_signal_per_batch x time lo hi B L C :
  shape x = [B; L; C] -> lo <> 0%R -> (0 < hi / lo)%R ->
  exists out,
    add_sinusoids_timing_signal x time lo hi = Ok out
    /\ shape out = [B; L; C]
    /\ length (data out) = B * (L * C)
    /\ forall b l c, b < B -> l < L -> c < C ->
         tget out [b; l; c]
         = fadd (tget x [b; l; c]) (signal_at lo hi C (Fin (INR l)) c).
Proof.
  intros Hx Hlo Hratio. destruct x as [sx dx]. cbn in Hx. subst sx.
  rewrite add_sinusoids_3d by assumption.
  eexists. split; [reflexivity|]. split; [reflexivity|].
  split; [apply length_tabulate|].
  intros b l c Hb Hl Hc. unfold tget, elt. cbn [shape data ravel].
  rewrite numel2, numel1. change (numel []) with 1.
  rewrite Nat.mul_1_r, Nat.add_0_r.
  assert (Hj : l * C + c < L * C) by nia.
  rewrite nth_tabulate by nia.
  replace ((b * (L * C) + (l * C + c)) mod (L * C)) with (l * C + c)
    by (symmetry; apply mod_row; exact Hj).
  now rewrite div_row, mod_row by assumption.
Qed.

Lemma add_sinusoids_same_signal_per_batch_witness :
  exists out,
    add_sinusoids_timing_signal x112 None 1 10000 = Ok out
    /\ shape out = [1; 1; 2]
    /\ length (data out) = 1 * (1 * 2)
    /\ forall b l c, b < 1 -> l < 1 -> c < 2 ->
         tget out [b; l; c]
         = fadd (tget x112 [b; l; c]) (signal_at 1 10000 2 (Fin (INR l)) c).
Proof.
  apply add_sinusoids_same_signal_per_batch; [reflexivity | lra | lra].
Defined.

(** C7 fails on the code: on a tensor of two channels the signal is
    NaN on both channels, at position 0 as at every other. *)
Theorem add_sinusoids_two_channels_nan :
  add_sinusoids_timing_signal x112 None 1 10000
  = Ok (Tensor [1; 1; 2] [NaN; NaN]).
Proof.
  unfold x112. rewrite add_sinusoids_3d by lra.
  f_equal. f_equal. unfold tabulate. cbn [Nat.mul Nat.add seq map].
  rewrite !signal_at_one_timescale
    by (reflexivity || apply ln_10000_pos
        || (apply Nat.mod_upper_bound; lia)).
  reflexivity.
Qed.

(** What holds at position 0: with a number of timescales other than
    one, the signal is 0 on the sine channels, 1 on the cosine
    channels and 0 on the padding. *)
Lemma add_sinusoids_position_0 x time lo hi B L C :
  shape x = [B; L; C] -> lo <> 0%R -> (0 < hi / lo)%R ->
  C / 2 <> 1 -> 0 < L ->
  exists out,
    add_sinusoids_timing_signal x time lo hi = Ok out
    /\ forall b c, b < B -> c < C ->
         tget out [b; 0; c]
         = fadd (tget x [b; 0; c])
             (if c <? C / 2 then Fin 0
              else if c <? C / 2 + C / 2 then Fin 1 else Fin 0).
Proof.
  intros Hx Hlo Hratio HC HL. destruct x as [sx dx]. cbn in Hx. subst sx.
  rewrite add_sinusoids_3d by assumption.
  eexists. split; [reflexivity|]. intros b c Hb Hc.
  unfold tget, elt. cbn [shape data ravel].
  rewrite numel2, numel1. change (numel []) with 1.
  rewrite Nat.mul_1_r, Nat.add_0_r.
  assert (Hj : 0 * C + c < L * C) by nia.
  rewrite nth_tabulate by nia.
  replace ((b * (L * C) + (0 * C + c)) mod (L * C)) with (0 * C + c)
    by (symmetry; apply mod_row; exact Hj).
  rewrite div_row, mod_row by assumption. cbn [INR].
  now rewrite signal_at_position_0.
Qed.

End TimingSignalFacts.


(** ** [PositionEmbeddingWrapper]: single steps, learned positions, errors *)

Module PositionEmbeddingFacts.

Import PositionEmbeddingWrapper TimingSignal Examples TFFacts.
Import TimingSignalFacts.

#[local] Arguments numel : simpl never.
#[local] Arguments Nat.div : simpl never.
#[local] Arguments Nat.modulo : simpl never.

Lemma broadcast_shape_row B C :
  broadcast_shape [B; C] [1; C] = Ok [B; C].
Proof.
  unfold broadcast_shape. cbn -[Nat.eqb].
  rewrite !Nat.eqb_refl. cbn -[Nat.eqb].
  now destruct (B =? 1).
Qed.

(** Adding a tensor of shape [[1, C]] adds it to every row. *)
Lemma tf_add_row B C dx sg :
  shape sg = [1; C] ->
  tf_add (Tensor [B; C] dx) sg
  = Ok (Tensor [B; C]
          (tabulate (B * C)
             (fun i => fadd (nth i dx NaN) (elt sg (i mod C))))).
Proof.
  intros Hs. unfold tf_add, tf_binop. cbn [shape]. rewrite Hs.
  rewrite broadcast_shape_row. cbn [bind]. f_equal. f_equal.
  rewrite numel2. apply tabulate_ext. intros i Hi.
  unfold bget, elt. cbn [shape length]. rewrite Hs.
  unfold align. cbn [length Nat.sub repeat app].
  rewrite ravel_bcoords_unravel by (rewrite numel2; exact Hi).
  f_equal. f_equal.
  cbn [unravel bcoords ravel]. rewrite Nat.eqb_refl.
  change (0 * numel [C]) with 0. cbn [Nat.add].
  rewrite numel1.
  apply (ravel_bcoords_unravel [C]). rewrite numel1.
  apply Nat.mod_upper_bound. destruct C; lia.
Qed.

(** The elements of the sum, on a 2-D input at step [t]. *)
Lemma add_sinusoids_2d B C dx t lo hi :
  lo <> 0%R -> (0 < hi / lo)%R ->
  add_sinusoids_timing_signal (Tensor [B; C] dx) (Some t) lo hi
  = Ok (Tensor [B; C]
          (tabulate (B * C)
             (fun i => fadd (nth i dx NaN)
                         (signal_at lo hi C (Fin (IZR t)) (i mod C))))).
Proof.
  intros Hlo Hratio. unfold add_sinusoids_timing_signal.
  cbn [shape].
  change (index [B; C] (-1)) with (Ok (A := nat) C).
  cbn [bind fst snd].
  unfold truediv. destruct (Req_dec_T lo 0) as [|_]; [contradiction|].
  cbn [bind]. unfold math_log.
  destruct (Rlt_dec 0 (hi / lo)) as [_|]; [|contradiction].
  cbn [bind].
  unfold tf_expand_dims, tf_scale, tf_map.
  cbn [shape data firstn skipn app].
  fold (log_timescale_increment lo hi C).
  rewrite inv_timescales_data, tf_mul_outer. cbn [bind shape data].
  unfold tf_concat_axis1. cbn [shape]. rewrite Nat.eqb_refl.
  cbn [bind]. unfold tf_pad_right. cbn [shape bind].
  unfold ndims. cbn [shape length Nat.eqb].
  set (n := C / 2).
  assert (HC : n + n + C mod 2 = C).
  { subst n. pose proof (Nat.div_mod_eq C 2). lia. }
  rewrite tf_reshape_explicit by (repeat constructor; lia).
  cbn [shape]. rewrite HC.
  replace (_ =? _)%Z with true
    by (symmetry; apply Z.eqb_eq; rewrite numel2; unfold prodZ;
        cbn [fold_right]; lia).
  cbn [map]. rewrite !Nat2Z.id. change (Z.to_nat 1) with 1.
  cbn [bind data].
  rewrite tf_add_row by reflexivity.
  f_equal. f_equal. apply tabulate_ext. intros i Hi. f_equal.
  unfold elt. cbn [data].
  assert (HCpos : 0 < C) by (destruct C; lia).
  set (c := i mod C).
  assert (Hc : c < C) by (apply Nat.mod_upper_bound; lia).
  rewrite nth_tabulate by lia.
  unfold signal_at. fold n.
  rewrite (Nat.div_small c C), (Nat.mod_small c C) by exact Hc.
  destruct (Nat.ltb_spec c (n + n)) as [Hlt|Hge].
  - rewrite nth_tabulate by lia.
    change (0 * (n + n) + c) with c.
    rewrite (Nat.div_small c (n + n)), (Nat.mod_small c (n + n)) by exact Hlt.
    destruct (Nat.ltb_spec c n) as [Hs|Hcs].
    + rewrite map_tabulate, nth_tabulate by lia.
      change (0 * n + c) with c.
      rewrite (Nat.div_small c n), (Nat.mod_small c n) by exact Hs.
      rewrite nth_tabulate by lia. reflexivity.
    + rewrite map_tabulate, nth_tabulate by lia.
      change (0 * n + (c - n)) with (c - n).
      rewrite (Nat.div_small (c - n) n), (Nat.mod_small (c - n) n) by lia.
      rewrite nth_tabulate by lia. reflexivity.
  - destruct (Nat.ltb_spec c n); [lia|reflexivity].
Qed.

Lemma elt_tf_scale c x i : elt (tf_scale c x) i = fmul (elt x i) c.
Proof.
  unfold elt, tf_scale, tf_map. cbn [data].
  change NaN with ((fun v => fmul v c) NaN) at 1. apply map_nth.
Qed.

Lemma tget3 t B L C b l c :
  shape t = [B; L; C] -> tget t [b; l; c] = elt t (b * (L * C) + (l * C + c)).
Proof.
  intros Hs. unfold tget. rewrite Hs. cbn [ravel].
  rewrite numel2, numel1. change (numel []) with 1. f_equal. lia.
Qed.

Lemma tget2 t B C b c :
  shape t = [B; C] -> tget t [b; c] = elt t (b * C + c).
Proof.
  intros Hs. unfold tget. rewrite Hs. cbn [ravel].
  rewrite numel1. change (numel []) with 1. f_equal. lia.
Qed.

Lemma mod_batch b j n : j < n -> (b * n + j) mod n = j.
Proof. apply mod_row. Qed.

Lemma tget3_tabulate B L C f b l c :
  b < B -> l < L -> c < C ->
  tget (Tensor [B; L; C] (tabulate (B * (L * C)) f)) [b; l; c]
  = f (b * (L * C) + (l * C + c)).
Proof.
  intros Hb Hl Hc. rewrite (@tget3 _ B L C) by reflexivity.
  unfold elt. cbn [data]. apply nth_tabulate.
  assert (l * C + c < L * C) by nia. nia.
Qed.

Lemma tget2_tabulate B C f b c :
  b < B -> c < C ->
  tget (Tensor [B; C] (tabulate (B * C) f)) [b; c] = f (b * C + c).
Proof.
  intros Hb Hc. rewrite (@tget2 _ B C) by reflexivity.
  unfold elt. cbn [data]. apply nth_tabulate. nia.
Qed.

Lemma index_last {A} (l : list A) (a : A) : index (l ++ [a]) (-1) = Ok a.
Proof.
  unfold index. rewrite length_app. cbn [length Z.ltb Z.compare].
  replace (-1 + Z.of_nat (length l + 1))%Z with (Z.of_nat (length l)) by lia.
  replace (Z.of_nat (length l) <? 0)%Z with false
    by (symmetry; apply Z.ltb_ge; lia).
  rewrite Nat2Z.id, nth_error_app2, Nat.sub_diag by lia. reflexivity.
Qed.

(** A tensor of a rank other than 2 and 3 is refused. *)
Lemma add_sinusoids_rank_error x time lo hi :
  ndims x <> 2 -> ndims x <> 3 ->
  raises (add_sinusoids_timing_signal x time lo hi).
Proof.
  unfold ndims, add_sinusoids_timing_signal. intros H2 H3.
  destruct (index (shape x) (-1)) as [ch|e]; [|now exists e].
  cbn [bind].
  destruct (shape x) as [|a [|b [|c [|d s]]]]; cbn in H2, H3;
    try congruence; now exists ValueError.
Qed.

(** Gathering the first [L] rows of a table that has them. *)
Lemma tf_gather_range table P D L :
  shape table = [P; D] -> L <= P ->
  tf_gather table (map Z.of_nat (seq 0 L))
  = Ok (Tensor [L; D] (tabulate (L * D) (fun j => elt table j))).
Proof.
  intros Hs HL. unfold tf_gather. rewrite Hs.
  replace (forallb _ _) with true.
  - rewrite length_map, length_seq. f_equal. f_equal.
    apply tabulate_ext. intros j Hj. f_equal.
    pose proof (@div_lt_rows j L D Hj) as Hq.
    change 0%Z with (Z.of_nat 0). rewrite map_nth, seq_nth by exact Hq.
    rewrite Nat2Z.id. cbn [Nat.add].
    pose proof (Nat.div_mod_eq j D). lia.
  - symmetry. apply forallb_forall. intros z Hz.
    apply in_map_iff in Hz. destruct Hz as (k & <- & Hk).
    apply in_seq in Hk.
    apply andb_true_intro. split; [apply Z.leb_le | apply Z.ltb_lt]; lia.
Qed.

Lemma tf_gather_row_ok table P D t :
  shape table = [P; D] -> (0 <= t < Z.of_nat P)%Z ->
  tf_gather_row table t
  = Ok (Tensor [D] (tabulate D (fun c => elt table (Z.to_nat t * D + c)))).
Proof.
  intros Hs Ht. unfold tf_gather_row. rewrite Hs.
  replace (_ && _)%bool with true; [reflexivity|].
  symmetry. apply andb_true_intro.
  split; [apply Z.leb_le | apply Z.ltb_lt]; lia.
Qed.

Section Facts.

Variable Inputs : Type.
Implicit Types (self : t Inputs) (kw : kwargs).

(** The call in sinusoids mode, once its checks have passed. *)
Lemma call_sinusoids_unfold self inputs time kw emb :
  _timing self = Some Sinusoids ->
  default (PyStr "embedding") (kw !! "mode"%string) = PyStr "embedding" ->
  embedding_call (_embedding_layer self) inputs kw = Ok emb ->
  index (shape emb) (-1) = Ok (Z.to_nat (_embedding_dim self)) ->
  (0 <= _embedding_dim self)%Z ->
  ((ndims emb =? 2) && is_none time)%bool = false ->
  call self inputs time kw
  = add_sinusoids_timing_signal
      (tf_scale (Fin (sqrt (IZR (_embedding_dim self)))) emb) time 1 10000.
Proof.
  intros Ht Hm He Hi Hd Hn. unfold call.
  rewrite He, Hm, Ht. cbn -[index]. rewrite Hi. cbn [bind].
  rewrite Z2Nat.id, Z.eqb_refl by assumption. cbn [assert bind].
  now rewrite Hn.
Qed.

(** The call in learned mode, once its checks have passed. *)
Lemma call_learned_unfold self inputs time kw emb table :
  _timing self = Some Emb ->
  _position_emb_table self = Some table ->
  default (PyStr "embedding") (kw !! "mode"%string) = PyStr "embedding" ->
  embedding_call (_embedding_layer self) inputs kw = Ok emb ->
  index (shape emb) (-1) = Ok (Z.to_nat (_embedding_dim self)) ->
  (0 <= _embedding_dim self)%Z ->
  ((ndims emb =? 2) && is_none time)%bool = false ->
  call self inputs time kw
  = let* position_emb :=
      (if ndims emb =? 2 then
         match time with
         | Some tm => tf_gather_row table tm
         | None => Raise TypeError
         end
       else if ndims emb =? 3 then
         let* length := index (shape emb) 1 in
         tf_gather table (map Z.of_nat (seq 0 length))
       else Raise ValueError) in
    tf_add emb (tf_expand_dims position_emb 0).
Proof.
  intros Ht Htb Hm He Hi Hd Hn. unfold call.
  rewrite He, Hm, Ht, Htb. cbn -[index]. rewrite Hi. cbn [bind].
  rewrite Z2Nat.id, Z.eqb_refl by assumption. cbn [assert bind].
  rewrite Hn.
  destruct (ndims emb =? 2); [destruct time; reflexivity|].
  destruct (ndims emb =? 3); [|reflexivity].
  now destruct (index (shape emb) 1).
Qed.

(** The whole result in sinusoids mode, on a sequence and on a step. *)
Lemma call_sinusoids_3d_data self inputs time kw B L C dx :
  _timing self = Some Sinusoids ->
  default (PyStr "embedding") (kw !! "mode"%string) = PyStr "embedding" ->
  embedding_call (_embedding_layer self) inputs kw
  = Ok (Tensor [B; L; C] dx) ->
  _embedding_dim self = Z.of_nat C ->
  call self inputs time kw
  = Ok (Tensor [B; L; C]
          (tabulate (B * (L * C))
             (fun i => fadd (fmul (nth i dx NaN) (Fin (sqrt (INR C))))
                         (signal_at 1 10000 C
                            (Fin (INR ((i mod (L * C)) / C)))
                            ((i mod (L * C)) mod C))))).
Proof.
  intros Ht Hm He Hd.
  rewrite (@call_sinusoids_unfold self inputs time kw _ Ht Hm He);
    rewrite ?Hd, ?Nat2Z.id; try (reflexivity || lia).
  unfold tf_scale, tf_map. cbn [shape data].
  rewrite add_sinusoids_3d by lra.
  rewrite <- INR_IZR_INZ.
  f_equal. f_equal. apply tabulate_ext. intros i _. f_equal.
  change NaN with ((fun v => fmul v (Fin (sqrt (INR C)))) NaN) at 1.
  apply map_nth.
Qed.

Lemma call_sinusoids_2d_data self inputs t kw B C dx :
  _timing self = Some Sinusoids ->
  default (PyStr "embedding") (kw !! "mode"%string) = PyStr "embedding" ->
  embedding_call (_embedding_layer self) inputs kw = Ok (Tensor [B; C] dx) ->
  _embedding_dim self = Z.of_nat C ->
  call self inputs (Some t) kw
  = Ok (Tensor [B; C]
          (tabulate (B * C)
             (fun i => fadd (fmul (nth i dx NaN) (Fin (sqrt (INR C))))
                         (signal_at 1 10000 C (Fin (IZR t)) (i mod C))))).
Proof.
  intros Ht Hm He Hd.
  rewrite (@call_sinusoids_unfold self inputs (Some t) kw _ Ht Hm He);
    rewrite ?Hd, ?Nat2Z.id; try (reflexivity || lia).
  unfold tf_scale, tf_map. cbn [shape data].
  rewrite add_sinusoids_2d by lra.
  rewrite <- INR_IZR_INZ.
  f_equal. f_equal. apply tabulate_ext. intros i _. f_equal.
  change NaN with ((fun v => fmul v (Fin (sqrt (INR C)))) NaN) at 1.
  apply map_nth.
Qed.

(** The whole result in learned mode, on a sequence and on a step. *)
Lemma call_learned_3d_data self inputs time kw table P B L C dx :
  _timing self = Some Emb ->
  _position_emb_table self = Some table -> shape table = [P; C] ->
  default (PyStr "embedding") (kw !! "mode"%string) = PyStr "embedding" ->
  embedding_call (_embedding_layer self) inputs kw
  = Ok (Tensor [B; L; C] dx) ->
  _embedding_dim self = Z.of_nat C ->
  L <= P ->
  call self inputs time kw
  = Ok (Tensor [B; L; C]
          (tabulate (B * (L * C))
             (fun i => fadd (nth i dx NaN) (elt table (i mod (L * C)))))).
Proof.
  intros Ht Htb Hs Hm He Hd HL.
  rewrite (@call_learned_unfold self inputs time kw _ table Ht Htb Hm He);
    rewrite ?Hd, ?Nat2Z.id; try (reflexivity || lia).
  unfold ndims. cbn [shape length Nat.eqb].
  change (index [B; L; C] 1) with (Ok (A := nat) L). cbn [bind].
  rewrite (@tf_gather_range table P C L Hs HL). cbn [bind].
  rewrite tf_add_batch by reflexivity.
  f_equal. f_equal. apply tabulate_ext. intros i Hi. f_equal.
  unfold elt, tf_expand_dims. cbn [data].
  apply nth_tabulate. apply Nat.mod_upper_bound. destruct (L * C); lia.
Qed.

Lemma call_learned_2d_data self inputs t kw table P B C dx :
  _timing self = Some Emb ->
  _position_emb_table self = Some table -> shape table = [P; C] ->
  default (PyStr "embedding") (kw !! "mode"%string) = PyStr "embedding" ->
  embedding_call (_embedding_layer self) inputs kw = Ok (Tensor [B; C] dx) ->
  _embedding_dim self = Z.of_nat C ->
  (0 <= t < Z.of_nat P)%Z ->
  call self inputs (Some t) kw
  = Ok (Tensor [B; C]
          (tabulate (B * C)
             (fun i => fadd (nth i dx NaN)
                         (elt table (Z.to_nat t * C + i mod C))))).
Proof.
  intros Ht Htb Hs Hm He Hd Hrange.
  rewrite (@call_learned_unfold self inputs (Some t) kw _ table
             Ht Htb Hm He);
    rewrite ?Hd, ?Nat2Z.id; try (reflexivity || lia).
  unfold ndims. cbn [shape length Nat.eqb].
  rewrite (@tf_gather_row_ok table P C t Hs Hrange). cbn [bind].
  rewrite tf_add_row by reflexivity.
  f_equal. f_equal. apply tabulate_ext. intros i Hi. f_equal.
  unfold elt, tf_expand_dims. cbn [data].
  apply nth_tabulate. apply Nat.mod_upper_bound. destruct C; lia.
Qed.

(** X1: in sinusoids mode a sequence is scaled by the square root of
    the embedding dimension, then receives the signal of each position. *)
Theorem call_sinusoids_sequence self inputs time kw emb B L C :
  _timing self = Some Sinusoids ->
  default (PyStr "embedding") (kw !! "mode"%string) = PyStr "embedding" ->
  embedding_call (_embedding_layer self) inputs kw = Ok emb ->
  shape emb = [B; L; C] ->
  _embedding_dim self = Z.of_nat C ->
  exists out,
    call self inputs time kw = Ok out
    /\ shape out = [B; L; C]
    /\ forall b l c, b < B -> l < L -> c < C ->
         tget out [b; l; c]
         = fadd (fmul (tget emb [b; l; c]) (Fin (sqrt (INR C))))
             (signal_at 1 10000 C (Fin (INR l)) c).
Proof.
  intros Ht Hm He Hs Hd. destruct emb as [sx dx]. cbn in Hs. subst sx.
  rewrite (@call_sinusoids_3d_data self inputs time kw B L C dx)
    by assumption.
  eexists. split; [reflexivity|]. split; [reflexivity|].
  intros b l c Hb Hl Hc.
  rewrite tget3_tabulate by assumption.
  rewrite (@tget3 _ B L C) by reflexivity. unfold elt. cbn [data].
  rewrite mod_batch by nia.
  now rewrite div_row, mod_row by assumption.
Qed.

(** X2: in learned mode a sequence no longer than the table receives
    row [l] of the table at position [l]. *)
Theorem call_learned_sequence self inputs time kw emb table P B L C :
  _timing self = Some Emb ->
  _position_emb_table self = Some table -> shape table = [P; C] ->
  default (PyStr "embedding") (kw !! "mode"%string) = PyStr "embedding" ->
  embedding_call (_embedding_layer self) inputs kw = Ok emb ->
  shape emb = [B; L; C] ->
  _embedding_dim self = Z.of_nat C ->
  L <= P ->
  exists out,
    call self inputs time kw = Ok out
    /\ shape out = [B; L; C]
    /\ forall b l c, b < B -> l < L -> c < C ->
         tget out [b; l; c]
         = fadd (tget emb [b; l; c]) (tget table [l; c]).
Proof.
  intros Ht Htb Hst Hm He Hs Hd HL.
  destruct emb as [sx dx]. cbn in Hs. subst sx.
  rewrite (@call_learned_3d_data self inputs time kw table P B L C dx)
    by assumption.
  eexists. split; [reflexivity|]. split; [reflexivity|].
  intros b l c Hb Hl Hc.
  rewrite tget3_tabulate by assumption.
  rewrite (@tget3 _ B L C) by reflexivity.
  rewrite (@tget2 _ P C) by assumption. unfold elt. cbn [data].
  now rewrite mod_batch by nia.
Qed.

(** X3: in learned mode a single step at a time inside the table
    receives the row of the table at that time. *)
Theorem call_learned_step self inputs t kw emb table P B C :
  _timing self = Some Emb ->
  _position_emb_table self = Some table -> shape table = [P; C] ->
  default (PyStr "embedding") (kw !! "mode"%string) = PyStr "embedding" ->
  embedding_call (_embedding_layer self) inputs kw = Ok emb ->
  shape emb = [B; C] ->
  _embedding_dim self = Z.of_nat C ->
  (0 <= t < Z.of_nat P)%Z ->
  exists out,
    call self inputs (Some t) kw = Ok out
    /\ shape out = [B; C]
    /\ forall b c, b < B -> c < C ->
         tget out [b; c]
         = fadd (tget emb [b; c]) (tget table [Z.to_nat t; c]).
Proof.
  intros Ht Htb Hst Hm He Hs Hd Hrange.
  destruct emb as [sx dx]. cbn in Hs. subst sx.
  rewrite (@call_learned_2d_data self inputs t kw table P B C dx)
    by assumption.
  eexists. split; [reflexivity|]. split; [reflexivity|].
  intros b c Hb Hc.
  rewrite tget2_tabulate by assumption.
  rewrite (@tget2 _ B C) by reflexivity.
  rewrite (@tget2 _ P C) by assumption. unfold elt. cbn [data].
  now rewrite mod_batch by assumption.
Qed.

(** X4: decoding one step at time [t] adds the position that the full
    sequence receives at position [t]: when the step's embedding is
    the sequence's embedding at [t], the step's result is the
    sequence's result at [t], in sinusoids and in learned mode. *)
Theorem call_step_matches_sequence
  self seq_inputs step_inputs kw emb3 emb2 B L C t :
  _timing self = Some Sinusoids
  \/ (_timing self = Some Emb
      /\ exists table P, _position_emb_table self = Some table
                         /\ shape table = [P; C] /\ L <= P) ->
  default (PyStr "embedding") (kw !! "mode"%string) = PyStr "embedding" ->
  embedding_call (_embedding_layer self) seq_inputs kw = Ok emb3 ->
  shape emb3 = [B; L; C] ->
  embedding_call (_embedding_layer self) step_inputs kw = Ok emb2 ->
  shape emb2 = [B; C] ->
  _embedding_dim self = Z.of_nat C ->
  t < L ->
  (forall b c, b < B -> c < C -> tget emb2 [b; c] = tget emb3 [b; t; c]) ->
  exists out3 out2,
    call self seq_inputs None kw = Ok out3
    /\ call self step_inputs (Some (Z.of_nat t)) kw = Ok out2
    /\ forall b c, b < B -> c < C -> tget out2 [b; c] = tget out3 [b; t; c].
Proof.
  intros Hmode Hm He3 Hs3 He2 Hs2 Hd Ht Hsame.
  destruct emb3 as [s3 d3]. cbn in Hs3. subst s3.
  destruct emb2 as [s2 d2]. cbn in Hs2. subst s2.
  assert (Hsame' : forall b c, b < B -> c < C ->
            nth (b * C + c) d2 NaN = nth (b * (L * C) + (t * C + c)) d3 NaN).
  { intros b c Hb Hc. specialize (Hsame b c Hb Hc).
    rewrite (@tget2 _ B C), (@tget3 _ B L C) in Hsame by reflexivity.
    exact Hsame. }
  destruct Hmode as [Hsin | (Hemb & table & P & Htb & Hst & HL)].
  - rewrite (@call_sinusoids_3d_data self seq_inputs None kw B L C d3)
      by assumption.
    rewrite (@call_sinusoids_2d_data self step_inputs (Z.of_nat t) kw
               B C d2) by assumption.
    eexists. eexists. split; [reflexivity|]. split; [reflexivity|].
    intros b c Hb Hc.
    rewrite tget2_tabulate, tget3_tabulate by assumption.
    rewrite Hsame' by assumption.
    rewrite !mod_batch by nia. rewrite <- INR_IZR_INZ.
    now rewrite div_row by assumption.
  - rewrite (@call_learned_3d_data self seq_inputs None kw table P B L C d3)
      by assumption.
    rewrite (@call_learned_2d_data self step_inputs (Z.of_nat t) kw table
               P B C d2) by (assumption || lia).
    eexists. eexists. split; [reflexivity|]. split; [reflexivity|].
    intros b c Hb Hc.
    rewrite tget2_tabulate, tget3_tabulate by assumption.
    rewrite Hsame' by assumption.
    rewrite !mod_batch by nia. now rewrite Nat2Z.id.
Qed.

(** X5: a call whose embedding does not end in the embedding dimension
    fails its assertion: the positional dimension must equal the token
    embedding's. *)
Theorem call_dimension_mismatch self inputs time kw emb dims d :
  _timing self <> None ->
  default (PyStr "embedding") (kw !! "mode"%string) = PyStr "embedding" ->
  embedding_call (_embedding_layer self) inputs kw = Ok emb ->
  shape emb = dims ++ [d] ->
  Z.of_nat d <> _embedding_dim self ->
  call self inputs time kw = Raise AssertionError.
Proof.
  intros Ht Hm He Hs Hd. unfold call. rewrite He, Hm. cbn -[index].
  destruct (_timing self); [|congruence]. cbn -[index].
  rewrite Hs, index_last. cbn [bind].
  replace (_ =? _)%Z with false by (symmetry; apply Z.eqb_neq; exact Hd).
  reflexivity.
Qed.

(** X6: with a timing, in embedding mode, an embedding of a rank other
    than 2 and 3 makes the call raise. *)
Theorem call_rank_error self inputs time kw emb :
  _timing self <> None ->
  default (PyStr "embedding") (kw !! "mode"%string) = PyStr "embedding" ->
  embedding_call (_embedding_layer self) inputs kw = Ok emb ->
  ndims emb <> 2 -> ndims emb <> 3 ->
  raises (call self inputs time kw).
Proof.
  intros Ht Hm He H2 H3. unfold call. rewrite He, Hm. cbn -[index].
  destruct (_timing self) as [tm|]; [|congruence]. cbn -[index].
  destruct (index (shape emb) (-1)) as [d|e]; [|now exists e].
  cbn [bind].
  destruct (assert _) as [u|e]; [|now exists e]. cbn [bind].
  apply Nat.eqb_neq in H2, H3. rewrite H2, H3. cbn [andb].
  apply Nat.eqb_neq in H2, H3.
  destruct tm.
  - apply add_sinusoids_rank_error; unfold ndims, tf_scale, tf_map;
      assumption.
  - now exists ValueError.
Qed.

(** X7: construction accepts the timing [None] and the timing strings
    ["sinusoids"] and ["emb"], and fails its assertion on every other
    string. *)
Theorem init_timing (name : string) layer max_positions initializer :
  (exists self : t Inputs,
     init PyNone layer max_positions initializer = Ok self
     /\ _timing self = None)
  /\ (((name = "sinusoids" \/ name = "emb")%string
       /\ exists self : t Inputs,
            init (PyStr name) layer max_positions initializer = Ok self
            /\ _timing self <> None)
      \/ (name <> "sinusoids"%string /\ name <> "emb"%string
          /\ init (PyStr name) layer max_positions initializer
             = Raise (A := t Inputs) AssertionError)).
Proof.
  split; [eexists; split; reflexivity|].
  unfold init. cbn.
  destruct (String.eqb_spec name "sinusoids") as [->|H1].
  - left. split; [now left|]. eexists. split; [reflexivity|discriminate].
  - destruct (String.eqb_spec name "emb") as [->|H2].
    + left. split; [now right|]. eexists. split; [reflexivity|discriminate].
    + right. repeat split; assumption.
Qed.

End Facts.

Lemma call_sinusoids_sequence_witness :
  exists out,
    call (wrapper (Some Sinusoids)) x112 None ∅ = Ok out
    /\ shape out = [1; 1; 2]
    /\ forall b l c, b < 1 -> l < 1 -> c < 2 ->
         tget out [b; l; c]
         = fadd (fmul (tget x112 [b; l; c]) (Fin (sqrt (INR 2))))
             (signal_at 1 10000 2 (Fin (INR l)) c).
Proof.
  apply call_sinusoids_sequence; reflexivity.
Defined.

Lemma call_learned_sequence_witness :
  exists out,
    call (wrapper (Some Emb)) x112 None ∅ = Ok out
    /\ shape out = [1; 1; 2]
    /\ forall b l c, b < 1 -> l < 1 -> c < 2 ->
         tget out [b; l; c]
         = fadd (tget x112 [b; l; c])
             (tget (Tensor [512; 2] (tabulate 1024 (fun _ => Fin 1))) [l; c]).
Proof.
  eapply call_learned_sequence with (P := 512);
    try reflexivity. lia.
Defined.

Lemma call_learned_step_witness :
  exists out,
    call (wrapper (Some Emb)) x12 (Some 5%Z) ∅ = Ok out
    /\ shape out = [1; 2]
    /\ forall b c, b < 1 -> c < 2 ->
         tget out [b; c]
         = fadd (tget x12 [b; c])
             (tget (Tensor [512; 2] (tabulate 1024 (fun _ => Fin 1)))
                [Z.to_nat 5; c]).
Proof.
  eapply call_learned_step with (P := 512); try reflexivity. lia.
Defined.

Lemma call_step_matches_sequence_witness :
  exists out3 out2,
    call (wrapper (Some Emb)) x112 None ∅ = Ok out3
    /\ call (wrapper (Some Emb)) x12 (Some (Z.of_nat 0)) ∅ = Ok out2
    /\ forall b c, b < 1 -> c < 2 -> tget out2 [b; c] = tget out3 [b; 0; c].
Proof.
  eapply call_step_matches_sequence with (L := 1);
    try reflexivity; try lia.
  right. split; [reflexivity|].
  eexists. exists 512. split; [reflexivity|]. split; [reflexivity|lia].
Defined.

Lemma call_dimension_mismatch_witness :
  call (wrapper (Some Sinusoids)) x111 None ∅ = Raise AssertionError.
Proof.
  eapply call_dimension_mismatch with (dims := [1; 1]) (d := 1);
    try reflexivity; discriminate.
Defined.

Lemma call_rank_error_witness :
  raises (call (wrapper (Some Sinusoids)) (Tensor [2] [Fin 1; Fin 2])
            None ∅).
Proof.
  eapply call_rank_error; try reflexivity; discriminate.
Defined.

End PositionEmbeddingFacts.


(** ** [add_sinusoids_timing_signal]: the size of the signal *)

Module TimingSignalBounds.

Import PositionEmbeddingWrapper TimingSignal Examples TFFacts.
Import TimingSignalFacts PositionEmbeddingFacts.

Lemma signal_at_bounded lo hi C p c :
  C / 2 <> 1 ->
  exists s, (-1 <= s <= 1)%R /\ signal_at lo hi C (Fin p) c = Fin s.
Proof.
  intros HC. unfold signal_at.
  destruct (c <? C / 2).
  - destruct (@inv_timescale_finite lo hi C c HC) as (r & ->).
    cbn [fmul fsin]. eexists. split; [apply SIN_bound | reflexivity].
  - destruct (c <? C / 2 + C / 2).
    + destruct (@inv_timescale_finite lo hi C (c - C / 2) HC) as (r & ->).
      cbn [fmul fcos]. eexists. split; [apply COS_bound | reflexivity].
    + exists 0%R. split; [lra | reflexivity].
Qed.

(** X8: with a number of timescales other than one, what is added to
    each element of a 3-D input is a real number between -1 and 1. *)
Theorem add_sinusoids_signal_bounded x time lo hi B L C :
  shape x = [B; L; C] -> lo <> 0%R -> (0 < hi / lo)%R ->
  C / 2 <> 1 ->
  exists out,
    add_sinusoids_timing_signal x time lo hi = Ok out
    /\ forall b l c, b < B -> l < L -> c < C ->
         exists s, (-1 <= s <= 1)%R
                   /\ tget out [b; l; c] = fadd (tget x [b; l; c]) (Fin s).
Proof.
  intros Hx Hlo Hratio HC. destruct x as [sx dx]. cbn in Hx. subst sx.
  rewrite add_sinusoids_3d by assumption.
  eexists. split; [reflexivity|]. intros b l c Hb Hl Hc.
  rewrite tget3_tabulate by assumption.
  rewrite (@tget3 _ B L C) by reflexivity. unfold elt. cbn [data].
  destruct (@signal_at_bounded lo hi C
              (INR (((b * (L * C) + (l * C + c)) mod (L * C)) / C))
              (((b * (L * C) + (l * C + c)) mod (L * C)) mod C) HC)
    as (s & Hs & ->).
  now exists s.
Qed.

Lemma add_sinusoids_signal_bounded_witness :
  exists out,
    add_sinusoids_timing_signal
      (Tensor [1; 1; 4] [Fin 1; Fin 2; Fin 3; Fin 4]) None 1 10000 = Ok out
    /\ forall b l c, b < 1 -> l < 1 -> c < 4 ->
         exists s, (-1 <= s <= 1)%R
                   /\ tget out [b; l; c]
                      = fadd (tget (Tensor [1; 1; 4]
                                      [Fin 1; Fin 2; Fin 3; Fin 4])
                                [b; l; c]) (Fin s).
Proof.
  apply add_sinusoids_signal_bounded; try reflexivity; try lra.
  discriminate.
Defined.

End TimingSignalBounds.


(** ** [MultiHeadDenseLayer]: output transform, zero heads *)

Module MultiHeadDenseLayerFacts.

Import MultiHeadDenseLayer Examples TFFacts MultiHeadDenseLayerSpec.

#[local] Arguments sumZ : simpl never.
#[local] Arguments numel : simpl never.

(** The stored kernel [[m, n]] viewed as [[h, -1, n]]: the rows must
    split evenly into [h] groups. *)
Lemma tf_reshape_infer_middle t h n m :
  (0 < h)%Z -> (0 < n)%Z -> shape t = [m; Z.to_nat n] ->
  tf_reshape t [h; (-1)%Z; n]
  = if (Z.of_nat m mod h =? 0)%Z
    then Ok (Tensor [Z.to_nat h; Z.to_nat (Z.of_nat m / h); Z.to_nat n]
               (data t))
    else Raise InvalidArgumentError.
Proof.
  intros Hh Hn Hs. unfold tf_reshape. rewrite Hs.
  cbn [existsb count_occ List.filter map].
  replace (h <? -1)%Z with false by (symmetry; apply Z.ltb_ge; lia).
  replace (n <? -1)%Z with false by (symmetry; apply Z.ltb_ge; lia).
  replace (-1 <? -1)%Z with false by reflexivity.
  replace (0 <? -1)%Z with false by reflexivity.
  replace (0 =? -1)%Z with false by reflexivity.
  replace (-1 =? -1)%Z with true by reflexivity.
  replace (0 =? h)%Z with false by (symmetry; apply Z.eqb_neq; lia).
  replace (0 =? n)%Z with false by (symmetry; apply Z.eqb_neq; lia).
  replace (0 <? h)%Z with true by (symmetry; apply Z.ltb_lt; lia).
  replace (0 <? n)%Z with true by (symmetry; apply Z.ltb_lt; lia).
  replace (h =? -1)%Z with false by (symmetry; apply Z.eqb_neq; lia).
  replace (n =? -1)%Z with false by (symmetry; apply Z.eqb_neq; lia).
  destruct (Z.eq_dec h (-1)%Z) as [|_]; [lia|].
  destruct (Z.eq_dec (-1)%Z (-1)%Z) as [_|]; [|congruence].
  destruct (Z.eq_dec n (-1)%Z) as [|_]; [lia|].
  cbn [orb andb negb prodZ fold_right].
  assert (HN : Z.of_nat (numel [m; Z.to_nat n]) = (Z.of_nat m * n)%Z).
  { unfold numel. cbn [fold_right]. lia. }
  rewrite HN, Z.mul_1_r.
  rewrite Z.div_mul_cancel_r by lia.
  pose proof (Z.div_mod (Z.of_nat m) h ltac:(lia)) as Hdm.
  destruct (Z.eqb_spec (Z.of_nat m mod h) 0) as [H0|Hne].
  - replace (h * n * (Z.of_nat m / h) =? Z.of_nat m * n)%Z with true
      by (symmetry; apply Z.eqb_eq; nia).
    replace (h * (Z.of_nat m / h * n) =? Z.of_nat m * n)%Z with true
      by (symmetry; apply Z.eqb_eq; nia).
    reflexivity.
  - replace (h * n * (Z.of_nat m / h) =? Z.of_nat m * n)%Z with false
      by (symmetry; apply Z.eqb_neq; nia).
    reflexivity.
Qed.

(** The first call in output-transform mode, up to the contraction. *)
Lemma keras_call_output_transform n h kinit binit act ub self x a b c d :
  (0 < h)%Z -> (0 < n)%Z ->
  init (Leaf n) h kinit binit act ub true = Ok self ->
  shape x = [a; b; c; d] ->
  exists self' stored,
    shape stored = [d * c; Z.to_nat n]
    /\ data stored = tabulate (numel [d * c; Z.to_nat n]) kinit
    /\ keras_call self x
       = let* kernel := tf_reshape stored [h; (-1)%Z; n] in
         let* output := einsum_abcd_cde_abe x kernel in
         let* output :=
           (if ub
            then tf_add output
                   (Tensor [Z.to_nat n] (tabulate (Z.to_nat n) binit))
            else Ok output) in
         Ok (Leaf (match act with
                   | Some f => tf_map f output
                   | None => output
                   end), self').
Proof.
  intros Hh Hn Hinit Hx.
  unfold init in Hinit. cbn in Hinit. injection Hinit as <-.
  remember (keras_call _ _) as lhs eqn:E.
  unfold keras_call, build, compat_kernel_shape, bias_shape,
    scalar_output_units in E.
  cbn -[index] in E. rewrite Hx in E.
  change (index [a; b; c; d] (-1)) with (Ok (A := nat) d) in E.
  change (index [a; b; c; d] (-2)) with (Ok (A := nat) c) in E.
  cbn [bind] in E.
  rewrite add_weight_ok in E by (repeat constructor; lia).
  cbn [bind map] in E.
  replace (Z.to_nat (Z.of_nat d * Z.of_nat c)) with (d * c) in E by lia.
  assert (Hn1 : numel [Z.to_nat n] = Z.to_nat n)
    by (unfold numel; cbn; lia).
  destruct ub.
  - rewrite add_weight_ok in E by (repeat constructor; rewrite sumZ_single; lia).
    cbn [bind map] in E. rewrite sumZ_single, Hn1 in E.
    unfold call, kernel_shape, scalar_output_units in E.
    cbn -[einsum_abcd_cde_abe tf_add tf_reshape numel] in E.
    match type of E with
    | context [tf_reshape ?k _] => exists
        {| _output_units := Leaf n; _num_heads := h;
           _kernel_initializer := kinit; _bias_initializer := binit;
           _use_bias := true; _is_output_transform := true;
           _activation_fn := act; _flatten_output_units := [n];
           _kernel := Some k;
           _bias := Some (Tensor [Z.to_nat n] (tabulate (Z.to_nat n) binit));
           built := true |}, k
    end.
    split; [reflexivity|]. split; [reflexivity|]. rewrite E.
    destruct (tf_reshape _ _) as [k|e]; cbn [bind]; [|reflexivity].
    destruct (einsum_abcd_cde_abe _ _) as [o|e]; cbn [bind]; [|reflexivity].
    destruct (tf_add _ _) as [o'|e]; cbn [bind]; [|reflexivity].
    now destruct act.
  - cbn [bind] in E.
    unfold call, kernel_shape, scalar_output_units in E.
    cbn -[einsum_abcd_cde_abe tf_add tf_reshape numel] in E.
    match type of E with
    | context [tf_reshape ?k _] => exists
        {| _output_units := Leaf n; _num_heads := h;
           _kernel_initializer := kinit; _bias_initializer := binit;
           _use_bias := false; _is_output_transform := true;
           _activation_fn := act; _flatten_output_units := [n];
           _kernel := Some k; _bias := None; built := true |}, k
    end.
    split; [reflexivity|]. split; [reflexivity|]. rewrite E.
    destruct (tf_reshape _ _) as [k|e]; cbn [bind]; [|reflexivity].
    destruct (einsum_abcd_cde_abe _ _) as [o|e]; cbn [bind]; [|reflexivity].
    now destruct act.
Qed.

(** In output-transform mode the first call on an input
    [[a, b, num_heads, d]] returns a tensor [[a, b, output_units]],
    whether or not [output_units] is a multiple of [num_heads]. *)
Theorem output_transform_shape n h kinit binit act ub self x a b d :
  (0 < h)%Z -> (0 < n)%Z ->
  init (Leaf n) h kinit binit act ub true = Ok self ->
  shape x = [a; b; Z.to_nat h; d] ->
  exists out self',
    keras_call self x = Ok (Leaf out, self')
    /\ shape out = [a; b; Z.to_nat n].
Proof.
  intros Hh Hn Hinit Hx.
  destruct (@keras_call_output_transform n h kinit binit act ub self x
              a b (Z.to_nat h) d Hh Hn Hinit Hx)
    as (self' & stored & Hst & _ & ->).
  rewrite (@tf_reshape_infer_middle stored h n _ Hh Hn Hst).
  replace (Z.of_nat (d * Z.to_nat h)) with (Z.of_nat d * h)%Z by lia.
  rewrite Z.mod_mul, Z.div_mul by lia. cbn [Z.eqb bind].
  unfold einsum_abcd_cde_abe. rewrite Hx. cbn [shape].
  rewrite Nat2Z.id, !Nat.eqb_refl. cbn [andb bind].
  destruct ub.
  - match goal with
    | |- context [tf_add ?p ?q] =>
        destruct (@tf_add_bias_shape p q a b (Z.to_nat n) eq_refl eq_refl)
          as (y & -> & Hy)
    end.
    cbn [bind]. destruct act; eexists; eexists; (split; [reflexivity|]);
      cbn [shape tf_map]; exact Hy.
  - cbn [bind]. destruct act; eexists; eexists; split; reflexivity.
Qed.

Lemma output_transform_shape_witness :
  exists out self',
    keras_call
      {| _output_units := Leaf 3%Z; _num_heads := 2;
         _kernel_initializer := zeros; _bias_initializer := zeros;
         _use_bias := true; _is_output_transform := true;
         _activation_fn := None; _flatten_output_units := [3%Z];
         _kernel := None; _bias := None; built := false |}
      (Tensor [1; 1; Z.to_nat 2; 1] [Fin 1; Fin 2])
    = Ok (Leaf out, self')
    /\ shape out = [1; 1; Z.to_nat 3].
Proof.
  apply (@output_transform_shape 3%Z 2%Z zeros zeros None true _
           (Tensor [1; 1; Z.to_nat 2; 1] [Fin 1; Fin 2]) 1 1 1);
    reflexivity || lia.
Defined.

(** X9: in output-transform mode the first call on an input whose
    axis of heads is not [num_heads] long raises. *)
Theorem output_transform_heads_mismatch
  n h kinit binit act ub self x a b c d :
  (0 < h)%Z -> (0 < n)%Z ->
  init (Leaf n) h kinit binit act ub true = Ok self ->
  shape x = [a; b; c; d] ->
  c <> Z.to_nat h ->
  raises (keras_call self x).
Proof.
  intros Hh Hn Hinit Hx Hc.
  destruct (@keras_call_output_transform n h kinit binit act ub self x
              a b c d Hh Hn Hinit Hx)
    as (self' & stored & Hst & _ & ->).
  rewrite (@tf_reshape_infer_middle stored h n _ Hh Hn Hst).
  destruct (_ =? 0)%Z; cbn [bind]; [|now exists InvalidArgumentError].
  unfold einsum_abcd_cde_abe. rewrite Hx. cbn [shape].
  replace (c =? Z.to_nat h) with false
    by (symmetry; apply Nat.eqb_neq; exact Hc).
  cbn [andb bind]. now exists InvalidArgumentError.
Qed.

Lemma output_transform_heads_mismatch_witness :
  raises
    (keras_call
       {| _output_units := Leaf 3%Z; _num_heads := 2;
          _kernel_initializer := zeros; _bias_initializer := zeros;
          _use_bias := true; _is_output_transform := true;
          _activation_fn := None; _flatten_output_units := [3%Z];
          _kernel := None; _bias := None; built := false |}
       (Tensor [1; 1; 4; 1] [Fin 1; Fin 2; Fin 3; Fin 4])).
Proof.
  apply (@output_transform_heads_mismatch 3%Z 2%Z zeros zeros None true _
           (Tensor [1; 1; 4; 1] [Fin 1; Fin 2; Fin 3; Fin 4]) 1 1 4 1);
    reflexivity || lia.
Defined.

(** X10: with [num_heads] 0 the layer is constructed, and in split
    mode its first call on a 3-D input raises [ZeroDivisionError]. *)
Theorem split_mode_zero_heads units kinit binit act ub self x a b c :
  init units 0 kinit binit act ub false = Ok self ->
  List.Forall (fun z => (0 <= z)%Z) (flatten units) ->
  (0 < sumZ (flatten units))%Z ->
  shape x = [a; b; c] ->
  keras_call self x = Raise ZeroDivisionError.
Proof.
  intros Hinit Hnn Hsum Hx.
  destruct (@keras_call_split units 0%Z kinit binit act ub self x a b c
              Hinit Hnn Hsum Hx)
    as (self' & output & Hheads & Hout & ->).
  destruct (flatten units) as [|n0 rest].
  - unfold sumZ in Hsum. cbn in Hsum. lia.
  - cbn [map split_from map_structure2].
    unfold split_heads at 1, floordiv. rewrite Hheads. reflexivity.
Qed.

Lemma split_mode_zero_heads_witness :
  keras_call
    {| _output_units := Leaf 4%Z; _num_heads := 0;
       _kernel_initializer := zeros; _bias_initializer := zeros;
       _use_bias := true; _is_output_transform := false;
       _activation_fn := None; _flatten_output_units := [4%Z];
       _kernel := None; _bias := None; built := false |} x111
  = Raise ZeroDivisionError.
Proof.
  apply (@split_mode_zero_heads (Leaf 4%Z) zeros zeros None true _ x111
           1 1 1); try reflexivity.
  repeat constructor. lia.
Defined.

End MultiHeadDenseLayerFacts.


(** ** [tf.nest]: packing and flattening *)

Module NestFacts.

Import Nest.

Lemma nest_induction {A} (P : nest A -> Prop) :
  (forall a, P (Leaf a)) ->
  (forall children, List.Forall P children -> P (Node children)) ->
  forall s, P s.
Proof.
  intros HL HN.
  exact (fix F (s : nest A) : P s :=
           match s with
           | Leaf a => HL a
           | Node children =>
               HN children
                 ((fix G (l : list (nest A)) : List.Forall P l :=
                     match l with
                     | [] => @List.Forall_nil _ P
                     | c :: l' => @List.Forall_cons _ P c l' (F c) (G l')
                     end) children)
           end).
Qed.

Lemma fill_flatten {A B} (s : nest A) :
  forall (flat rest : list B),
    length flat = length (flatten s) ->
    exists s', fill s (flat ++ rest) = Some (s', rest) /\ flatten s' = flat.
Proof.
  induction s as [a | children IH] using nest_induction; intros flat rest Hlen.
  - cbn in Hlen. destruct flat as [|b [|? ?]]; try discriminate.
    cbn. eexists. split; reflexivity.
  - cbn [fill flatten] in *.
    set (fill_all := fix fill_all (l : list (nest A)) (flat0 : list B)
                       {struct l} : option (list (nest B) * list B) := _).
    assert (Hall : forall flat rest,
      length flat = length (flat_map flatten children) ->
      exists cs, fill_all children (flat ++ rest) = Some (cs, rest)
                 /\ flat_map flatten cs = flat).
    { clear flat rest Hlen.
      induction IH as [|c cs Hc _ IHcs]; intros flat rest Hlen.
      - cbn in Hlen. destruct flat; [|discriminate].
        cbn. eexists. split; reflexivity.
      - cbn [flat_map] in Hlen. rewrite length_app in Hlen.
        rewrite <- (firstn_skipn (length (flatten c)) flat).
        set (f1 := firstn (length (flatten c)) flat).
        set (f2 := skipn (length (flatten c)) flat).
        assert (Hf1 : length f1 = length (flatten c))
          by (subst f1; rewrite length_firstn; lia).
        assert (Hf2 : length f2 = length (flat_map flatten cs))
          by (subst f2; rewrite length_skipn; lia).
        destruct (Hc f1 (f2 ++ rest) Hf1) as (c' & Hfc & Hflat).
        destruct (IHcs f2 rest Hf2) as (cs' & Hfcs & Hflats).
        exists (c' :: cs'). rewrite <- app_assoc.
        cbn [fill_all]. unfold fill_all at 1. fold fill_all.
        rewrite Hfc, Hfcs. split; [reflexivity|].
        cbn [flat_map]. now rewrite Hflat, Hflats. }
    destruct (Hall flat rest Hlen) as (cs & -> & Hcs).
    eexists. split; [reflexivity|]. exact Hcs.
Qed.

(** Packing as many tensors as the structure has leaves succeeds, and
    flattening the result gives them back. *)
Lemma pack_flatten {A B} (s : nest A) (flat : list B) :
  length flat = length (flatten s) ->
  exists s', pack_sequence_as s flat = Ok s' /\ flatten s' = flat.
Proof.
  intros Hlen. destruct (fill_flatten s flat [] Hlen) as (s' & Hf & Hs).
  rewrite app_nil_r in Hf. exists s'. unfold pack_sequence_as.
  now rewrite Hf.
Qed.

End NestFacts.


(** ** [MultiHeadDenseLayer]: the elements of the split projection *)

Module MultiHeadProjectionFacts.

Import MultiHeadDenseLayer Examples TFFacts MultiHeadDenseLayerSpec.
Import TimingSignalFacts PositionEmbeddingFacts NestFacts.

#[local] Arguments sumZ : simpl never.
#[local] Arguments numel : simpl never.
#[local] Arguments Nat.div : simpl never.
#[local] Arguments Nat.modulo : simpl never.

Lemma nth_matmul m k n A B i :
  i < m * n ->
  nth i (matmul m k n A B) NaN
  = fsum (map (fun l => fmul (nth ((i / n) * k + l) A NaN)
                             (nth (l * n + i mod n) B NaN))
            (seq 0 k)).
Proof. intros Hi. unfold matmul. now rewrite nth_tabulate. Qed.

Lemma broadcast_shape_bias a b N :
  broadcast_shape [a; b; N] [N] = Ok [a; b; N].
Proof.
  unfold broadcast_shape. cbn -[Nat.eqb].
  rewrite Nat.eqb_refl. cbn -[Nat.eqb].
  destruct (b =? 1); cbn -[Nat.eqb]; now destruct (a =? 1).
Qed.

(** Adding a bias vector adds its element [i mod N] at offset [i]. *)
Lemma tf_add_bias_data a b N d bd :
  tf_add (Tensor [a; b; N] d) (Tensor [N] bd)
  = Ok (Tensor [a; b; N]
          (tabulate (a * (b * N))
             (fun i => fadd (nth i d NaN) (nth (i mod N) bd NaN)))).
Proof.
  unfold tf_add, tf_binop. cbn [shape].
  rewrite broadcast_shape_bias. cbn [bind]. f_equal. f_equal.
  rewrite numel3. apply tabulate_ext. intros i Hi.
  unfold bget, elt. cbn [shape length data].
  unfold align. cbn [length Nat.sub repeat app].
  rewrite ravel_bcoords_unravel by (rewrite numel3; exact Hi).
  f_equal. f_equal.
  cbn [unravel bcoords ravel]. rewrite !Nat.eqb_refl.
  rewrite !numel2, !numel1. change (numel []) with 1.
  assert (HN : 0 < N) by (destruct N; lia).
  assert (Hb : 0 < b * N) by (destruct (b * N); lia).
  assert (Hm : (i mod (b * N)) mod N = i mod N).
  { rewrite (Nat.mul_comm b N), Nat.Div0.mod_mul_r.
    rewrite (Nat.mul_comm N), Nat.Div0.mod_add. apply Nat.Div0.mod_mod. }
  rewrite Hm, Nat.div_1_r.
  pose proof (Nat.mod_upper_bound i N ltac:(lia)) as Hlt.
  destruct (Nat.eqb_spec N 1); lia.
Qed.

(** The first call in split mode, up to the reshape into heads, with
    the elements of the projection: row [r], output column [m].  The
    total width may be zero when the input has a channel. *)
Lemma keras_call_split_data units h kinit binit act ub self0 a b c dx :
  init units h kinit binit act ub false = Ok self0 ->
  List.Forall (fun z => (0 <= z)%Z) (flatten units) ->
  (0 < sumZ (flatten units))%Z \/ 0 < c ->
  exists self' output,
    _num_heads self' = h
    /\ shape output = [a; b; Z.to_nat (sumZ (flatten units))]
    /\ (forall r m, r < a * b -> m < Z.to_nat (sumZ (flatten units)) ->
        elt output (r * Z.to_nat (sumZ (flatten units)) + m)
        = let p := fsum (map (fun l =>
                     fmul (nth (r * c + l) dx NaN)
                       (kinit (l * Z.to_nat (sumZ (flatten units)) + m)))
                     (seq 0 c)) in
          if ub then fadd p (binit m) else p)
    /\ keras_call self0 (Tensor [a; b; c] dx)
       = let* outs := map_structure2 (split_heads self')
                        (split_from output 0 (map Z.to_nat (flatten units)))
                        (flatten units) in
         let* packed := pack_sequence_as units
                          (match act with
                           | Some f => map (tf_map f) outs
                           | None => outs
                           end) in
         Ok (packed, self').
Proof.
  intros Hinit Hnn Hsum.
  pose proof (sumZ_nonneg Hnn) as Hsum0.
  unfold init in Hinit. cbn in Hinit. injection Hinit as <-.
  remember (keras_call _ _) as lhs eqn:E.
  unfold keras_call, build, compat_kernel_shape, bias_shape in E.
  cbn in E. rewrite index_last3 in E. cbn in E.
  rewrite add_weight_ok in E by (repeat constructor; lia). cbn in E.
  rewrite Nat2Z.id in E.
  assert (Hproj : forall N r m, r < a * b -> m < N ->
    nth (r * N + m)
      (matmul (a * b) c N dx (tabulate (numel [c; N]) kinit)) NaN
    = fsum (map (fun l => fmul (nth (r * c + l) dx NaN) (kinit (l * N + m)))
              (seq 0 c))).
  { intros N r m Hr Hm. rewrite nth_matmul by nia.
    rewrite div_row, mod_row by exact Hm.
    f_equal. apply map_ext_in. intros l Hl. apply in_seq in Hl.
    f_equal. apply nth_tabulate. rewrite numel2. nia. }
  destruct ub.
  - rewrite add_weight_ok in E by (repeat constructor; lia). cbn in E.
    unfold call, kernel_shape in E. cbn in E.
    rewrite (@tf_reshape_rows _ c _ Hsum0 Hsum) in E by reflexivity.
    cbn in E. rewrite Nat.eqb_refl in E. cbn [bind] in E.
    rewrite numel1, tf_add_bias_data in E. cbn in E.
    unfold tf_split in E. cbn [shape] in E.
    rewrite split_sizes_ok in E by (assumption || (cbn; lia)).
    cbn in E.
    match type of E with context [split_heads ?s] => exists s end.
    match type of E with context [split_from ?o] => exists o end.
    split; [reflexivity|]. split; [reflexivity|]. split.
    + intros r m Hr Hm. unfold elt. cbn [data].
      rewrite nth_tabulate by nia.
      rewrite Hproj, mod_row by assumption.
      now rewrite nth_tabulate by exact Hm.
    + rewrite E. destruct (map_structure2 _ _ _); cbn; [|reflexivity].
      destruct (pack_sequence_as _ _); reflexivity.
  - unfold call, kernel_shape in E. cbn in E.
    rewrite (@tf_reshape_rows _ c _ Hsum0 Hsum) in E by reflexivity.
    cbn in E. rewrite Nat.eqb_refl in E. cbn in E.
    unfold tf_split in E. cbn in E.
    rewrite split_sizes_ok in E by (assumption || (cbn; lia)).
    cbn in E.
    match type of E with context [split_heads ?s] => exists s end.
    match type of E with context [split_from ?o] => exists o end.
    split; [reflexivity|]. split; [reflexivity|]. split.
    + intros r m Hr Hm. unfold elt. cbn [data].
      now rewrite Hproj by assumption.
    + rewrite E. destruct (map_structure2 _ _ _); cbn; [|reflexivity].
      destruct (pack_sequence_as _ _); reflexivity.
Qed.

Lemma sumZ_cons z l : sumZ (z :: l) = (z + sumZ l)%Z.
Proof. reflexivity. Qed.

Lemma Forall_pos_nonneg h (l : list Z) :
  List.Forall (fun n => (0 < n /\ n mod h = 0)%Z) l ->
  List.Forall (fun z => (0 <= z)%Z) l.
Proof.
  intros H. eapply List.Forall_impl; [|exact H]. cbn. intros z Hz. lia.
Qed.

(** The columns before part [k], and part [k], lie inside the total
    width. *)
Lemma prefix_bound (units : list Z) k n :
  List.Forall (fun z => (0 <= z)%Z) units ->
  nth_error units k = Some n ->
  (0 <= sumZ (firstn k units))%Z
  /\ (sumZ (firstn k units) + n <= sumZ units)%Z.
Proof.
  intros H. revert k. induction H as [|z l Hz Hl IH]; intros k Hk.
  - destruct k; discriminate.
  - destruct k as [|k].
    + cbn in Hk. injection Hk as ->. cbn [firstn].
      rewrite sumZ_cons. pose proof (sumZ_nonneg Hl).
      unfold sumZ at 1 2. cbn. lia.
    + cbn in Hk. destruct (IH k Hk) as [H1 H2].
      cbn [firstn]. rewrite !sumZ_cons. lia.
Qed.

(** Every part reshapes into heads when every width is a multiple of
    the number of heads; part [k] holds the columns that follow the
    first [k] widths. *)
Lemma map_structure2_split_ok self t a b d units :
  (0 < _num_heads self)%Z ->
  List.Forall (fun n => (0 < n /\ n mod _num_heads self = 0)%Z) units ->
  shape t = [a; b; d] ->
  forall off,
  exists outs,
    map_structure2 (split_heads self)
      (split_from t off (map Z.to_nat units)) units = Ok outs
    /\ length outs = length units
    /\ forall k n tk,
         nth_error units k = Some n -> nth_error outs k = Some tk ->
         tk = Tensor [a; b; Z.to_nat (_num_heads self);
                      Z.to_nat (n / _num_heads self)]
                (data (slice_last t
                         (off + Z.to_nat (sumZ (firstn k units)))
                         (Z.to_nat n))).
Proof.
  intros Hh Hall Hs.
  induction Hall as [|z l [Hz Hdiv] Hl IH]; intros off.
  - exists []. split; [reflexivity|]. split; [reflexivity|].
    intros k n tk Hk. destruct k; discriminate.
  - cbn [map split_from map_structure2].
    rewrite (@split_heads_divisible self _ a b z Hh ltac:(lia) Hdiv)
      by (eapply shape_slice_last; exact Hs).
    cbn [bind].
    destruct (IH (off + Z.to_nat z)) as (outs & -> & Hlen & Hnth).
    cbn [bind]. eexists. split; [reflexivity|].
    split; [cbn; now rewrite Hlen|].
    intros k n tk Hk Hout. destruct k as [|k].
    + cbn in Hk, Hout. injection Hk as ->. injection Hout as <-.
      cbn [firstn]. unfold sumZ. cbn. now rewrite Nat.add_0_r.
    + cbn in Hk, Hout. rewrite (Hnth k n tk Hk Hout).
      cbn [firstn]. rewrite sumZ_cons.
      destruct (@prefix_bound l k n (@Forall_pos_nonneg _ _ Hl) Hk) as [H0 _].
      do 3 f_equal. lia.
Qed.

Lemma tget4 t a b h U i j hd u :
  shape t = [a; b; h; U] ->
  tget t [i; j; hd; u]
  = elt t ((i * b + j) * (h * U) + (hd * U + u)).
Proof.
  intros Hs. unfold tget. rewrite Hs. cbn [ravel].
  rewrite numel3, numel2, numel1. change (numel []) with 1. f_equal. lia.
Qed.

(** An element of a part, read in the projection it was cut from. *)
Lemma heads_element t a b N off hh U i j hd u :
  shape t = [a; b; N] ->
  i < a -> j < b -> hd < hh -> u < U ->
  tget (Tensor [a; b; hh; U] (data (slice_last t off (hh * U))))
    [i; j; hd; u]
  = elt t ((i * b + j) * N + (off + (hd * U + u))).
Proof.
  intros Hs Hi Hj Hhd Hu.
  rewrite (@tget4 _ a b hh U) by reflexivity.
  unfold elt at 1. cbn [data]. unfold slice_last. rewrite Hs.
  cbn [removelast List.last data]. rewrite numel2.
  assert (Hm : hd * U + u < hh * U) by nia.
  assert (Hr : i * b + j < a * b) by nia.
  rewrite nth_tabulate by nia.
  rewrite div_row, mod_row by exact Hm. f_equal. lia.
Qed.

Lemma elt_tf_map f t i :
  i < length (data t) -> elt (tf_map f t) i = f (elt t i).
Proof.
  intros Hi. unfold elt, tf_map. cbn [data].
  rewrite (nth_indep _ NaN (f NaN)) by now rewrite length_map.
  apply map_nth.
Qed.

Lemma sumZ_pos_nonempty h (l : list Z) :
  List.Forall (fun n => (0 < n /\ n mod h = 0)%Z) l -> l <> [] ->
  (0 < sumZ l)%Z.
Proof.
  intros H Hne. destruct H as [|z l [Hz _] Hl]; [congruence|].
  rewrite sumZ_cons.
  pose proof (sumZ_nonneg (@Forall_pos_nonneg _ _ Hl)). lia.
Qed.




(** *** Split mode, one projection *)




(** X11: in split mode, when every configured width is a positive
    multiple of [num_heads], the first call returns the structure of
    [output_units] filled with one tensor per width.  Part [k] has the
    shape [[a, b, num_heads, width / num_heads]], and its element at
    head [hd], unit [u] is the dense projection (input row times the
    kernel column, plus the bias, through the activation) onto the
    column [hd * (width / num_heads) + u] that follows the widths of the
    parts before it. *)
Theorem split_mode_projection units h kinit binit act ub self x a b c :
  (0 < h)%Z ->
  List.Forall (fun n => (0 < n /\ n mod h = 0)%Z) (flatten units) ->
  flatten units <> [] ->
  init units h kinit binit act ub false = Ok self ->
  shape x = [a; b; c] ->
  exists out self',
    keras_call self x = Ok (out, self')
    /\ pack_sequence_as units (flatten out) = Ok out
    /\ forall k n,
         nth_error (flatten units) k = Some n ->
         exists tk,
           nth_error (flatten out) k = Some tk
           /\ shape tk = [a; b; Z.to_nat h; Z.to_nat (n / h)]
           /\ forall i j hd u,
                i < a -> j < b -> hd < Z.to_nat h -> u < Z.to_nat (n / h) ->
                tget tk [i; j; hd; u]
                = let m := Z.to_nat (sumZ (firstn k (flatten units)))
                           + (hd * Z.to_nat (n / h) + u) in
                  let p := fsum (map (fun l =>
                             fmul (tget x [i; j; l])
                               (kinit (l * Z.to_nat (sumZ (flatten units))
                                       + m)))
                             (seq 0 c)) in
                  let y := if ub then fadd p (binit m) else p in
                  match act with
                  | Some f => f y
                  | None => y
                  end.
Proof.
  intros Hh Hall Hne Hinit Hx.
  destruct x as [sx dx]. cbn in Hx. subst sx.
  pose proof (@Forall_pos_nonneg _ _ Hall) as Hnn.
  pose proof (@sumZ_pos_nonempty _ _ Hall Hne) as Hsum.
  destruct (@keras_call_split_data units h kinit binit act ub self a b c dx
              Hinit Hnn (or_introl Hsum))
    as (self' & output & Hheads & Hout & Helt & ->).
  rewrite <- Hheads in Hh, Hall.
  destruct (@map_structure2_split_ok self' output a b _ (flatten units)
              Hh Hall Hout 0) as (outs & -> & Hlen & Hnth).
  rewrite Hheads in *. cbn [bind].
  set (N := Z.to_nat (sumZ (flatten units))) in *.
  set (outs' := match act with
                | Some f => map (tf_map f) outs
                | None => outs
                end).
  assert (Hlen' : length outs' = length (flatten units)).
  { subst outs'. destruct act; [rewrite length_map|]; exact Hlen. }
  destruct (@pack_flatten _ _ units outs' Hlen') as (out & Hpack & Hflat).
  rewrite Hpack. cbn [bind]. exists out, self'.
  split; [reflexivity|]. split; [now rewrite Hflat|].
  intros k n Hk. rewrite Hflat.
  assert (Hklt : k < length outs).
  { rewrite Hlen. apply nth_error_Some. congruence. }
  destruct (nth_error outs k) as [tk0|] eqn:Hk0;
    [|apply nth_error_None in Hk0; lia].
  pose proof (Hnth k n tk0 Hk Hk0) as Htk0. cbn [Nat.add] in Htk0.
  set (hh := Z.to_nat h) in *. set (U := Z.to_nat (n / h)) in *.
  set (off := Z.to_nat (sumZ (firstn k (flatten units)))) in *.
  assert (Hnpos : (0 < n /\ n mod h = 0)%Z).
  { rewrite List.Forall_forall in Hall. apply Hall.
    eapply nth_error_In. exact Hk. }
  assert (HnU : Z.to_nat n = hh * U).
  { subst hh U. rewrite <- Z2Nat.inj_mul by (try apply Z.div_pos; lia).
    f_equal. pose proof (Z.div_mod n h ltac:(lia)). lia. }
  destruct (@prefix_bound (flatten units) k n Hnn Hk) as [Hoff0 Hoff].
  assert (HoffN : off + hh * U <= N) by (subst off N; lia).
  rewrite HnU in Htk0.
  assert (Hval : forall i j hd u, i < a -> j < b -> hd < hh -> u < U ->
    tget tk0 [i; j; hd; u]
    = let m := off + (hd * U + u) in
      let p := fsum (map (fun l =>
                 fmul (tget (Tensor [a; b; c] dx) [i; j; l])
                   (kinit (l * N + m))) (seq 0 c)) in
      if ub then fadd p (binit m) else p).
  { intros i j hd u Hi Hj Hhd Hu. rewrite Htk0.
    rewrite (@heads_element output a b N off hh U) by assumption.
    rewrite Helt by nia. cbn zeta.
    assert (Hrow : map (fun l => fmul (nth ((i * b + j) * c + l) dx NaN)
                                   (kinit (l * N + (off + (hd * U + u)))))
                     (seq 0 c)
                   = map (fun l => fmul (tget (Tensor [a; b; c] dx) [i; j; l])
                                     (kinit (l * N + (off + (hd * U + u)))))
                       (seq 0 c)).
    { apply map_ext. intros l. f_equal.
      rewrite (@tget3 _ a b c) by reflexivity. unfold elt. cbn [data].
      f_equal. lia. }
    now rewrite Hrow. }
  subst outs'. destruct act as [f|].
  - exists (tf_map f tk0).
    split; [now apply map_nth_error|].
    split; [rewrite Htk0; reflexivity|].
    intros i j hd u Hi Hj Hhd Hu. cbn zeta.
    rewrite (@tget4 _ a b hh U) by (rewrite Htk0; reflexivity).
    rewrite elt_tf_map.
    + rewrite <- (@tget4 _ a b hh U) by (rewrite Htk0; reflexivity).
      now rewrite Hval.
    + rewrite Htk0. cbn [data]. unfold slice_last. cbn [data].
      rewrite length_tabulate, Hout. cbn [removelast]. rewrite numel2.
      assert (hd * U + u < hh * U) by nia.
      assert (i * b + j < a * b) by nia. nia.
  - exists tk0. split; [exact Hk0|].
    split; [rewrite Htk0; reflexivity|].
    intros i j hd u Hi Hj Hhd Hu. now rewrite Hval.
Qed.

Lemma split_mode_projection_witness :
  exists out self',
    keras_call MoreExamples.two_projections x111 = Ok (out, self')
    /\ pack_sequence_as (Node [Leaf 2%Z; Leaf 4%Z]) (flatten out) = Ok out.
Proof.
  destruct (@split_mode_projection (Node [Leaf 2%Z; Leaf 4%Z]) 2%Z
              zeros zeros None true MoreExamples.two_projections
              x111 1 1 1)
    as (out & self' & Hcall & Hpack & _);
    try reflexivity; try lia; try discriminate.
  - repeat constructor; lia.
  - exists out, self'. split; [exact Hcall | exact Hpack].
Defined.

(** X12: in output-transform mode the first call contracts the head
    axis and the per-head axis together: the stored kernel of
    [num_heads * d] rows is read with row [hd * d + u] against the
    input's element at head [hd], unit [u]. *)
Theorem output_transform_elements n h kinit binit act ub self x a b d :
  (0 < h)%Z -> (0 < n)%Z ->
  init (Leaf n) h kinit binit act ub true = Ok self ->
  shape x = [a; b; Z.to_nat h; d] ->
  exists out self',
    keras_call self x = Ok (Leaf out, self')
    /\ shape out = [a; b; Z.to_nat n]
    /\ forall i j e, i < a -> j < b -> e < Z.to_nat n ->
         tget out [i; j; e]
         = let p := fsum (map (fun q =>
                      fmul (tget x [i; j; q / d; q mod d])
                        (kinit (q * Z.to_nat n + e)))
                      (seq 0 (Z.to_nat h * d))) in
           let y := if ub then fadd p (binit e) else p in
           match act with
           | Some f => f y
           | None => y
           end.
Proof.
  intros Hh Hn Hinit Hx.
  destruct (@MultiHeadDenseLayerFacts.keras_call_output_transform
              n h kinit binit act ub self x a b (Z.to_nat h) d
              Hh Hn Hinit Hx)
    as (self' & stored & Hst & Hdata & ->).
  rewrite (@MultiHeadDenseLayerFacts.tf_reshape_infer_middle
             stored h n _ Hh Hn Hst).
  replace (Z.of_nat (d * Z.to_nat h)) with (Z.of_nat d * h)%Z by lia.
  rewrite Z.mod_mul, Z.div_mul by lia. cbn [Z.eqb bind].
  destruct x as [sx dx]. cbn in Hx. subst sx.
  unfold einsum_abcd_cde_abe. cbn [shape data].
  rewrite Nat2Z.id, !Nat.eqb_refl. cbn [andb bind].
  set (hh := Z.to_nat h) in *. set (N := Z.to_nat n) in *.
  assert (Hproj : forall i j e, i < a -> j < b -> e < N ->
    nth ((i * b + j) * N + e)
      (matmul (a * b) (hh * d) N dx (data stored)) NaN
    = fsum (map (fun q =>
              fmul (tget (Tensor [a; b; hh; d] dx) [i; j; q / d; q mod d])
                (kinit (q * N + e)))
              (seq 0 (hh * d)))).
  { intros i j e Hi Hj He.
    assert (Hr : i * b + j < a * b) by nia.
    rewrite nth_matmul by nia.
    rewrite div_row, mod_row by exact He.
    f_equal. apply map_ext_in. intros q Hq. apply in_seq in Hq.
    assert (Hd : 0 < d) by (destruct d; lia).
    rewrite (@tget4 _ a b hh d) by reflexivity.
    unfold elt. cbn [data]. f_equal.
    - f_equal. pose proof (Nat.div_mod_eq q d). lia.
    - rewrite Hdata. apply nth_tabulate. rewrite numel2. nia. }
  assert (Hidx : forall i j e, i * (b * N) + (j * N + e)
                               = (i * b + j) * N + e) by (intros; lia).
  assert (Hlt : forall i j e, i < a -> j < b -> e < N ->
                              (i * b + j) * N + e < a * (b * N)).
  { intros i j e Hi Hj He. assert (i * b + j < a * b) by nia. nia. }
  destruct ub.
  - rewrite tf_add_bias_data. cbn [bind].
    destruct act as [f|]; eexists; eexists;
      (split; [reflexivity|]); (split; [reflexivity|]);
      intros i j e Hi Hj He; cbn zeta;
      rewrite (@tget3 _ a b N) by reflexivity; rewrite Hidx.
    + rewrite elt_tf_map
        by (cbn [data]; rewrite length_tabulate; now apply Hlt).
      unfold elt. cbn [data]. rewrite nth_tabulate by now apply Hlt.
      rewrite Hproj, mod_row by assumption.
      now rewrite nth_tabulate by exact He.
    + unfold elt. cbn [data]. rewrite nth_tabulate by now apply Hlt.
      rewrite Hproj, mod_row by assumption.
      now rewrite nth_tabulate by exact He.
  - cbn [bind].
    destruct act as [f|]; eexists; eexists;
      (split; [reflexivity|]); (split; [reflexivity|]);
      intros i j e Hi Hj He; cbn zeta;
      rewrite (@tget3 _ a b N) by reflexivity; rewrite Hidx.
    + rewrite elt_tf_map
        by (cbn [data]; unfold matmul; rewrite length_tabulate;
            specialize (Hlt i j e Hi Hj He); lia).
      unfold elt. cbn [data]. now rewrite Hproj.
    + unfold elt. cbn [data]. now rewrite Hproj.
Qed.

Lemma output_transform_elements_witness :
  exists out self',
    keras_call MoreExamples.merge_heads
      (Tensor [1; 1; Z.to_nat 2; 1] [Fin 1; Fin 2])
    = Ok (Leaf out, self')
    /\ shape out = [1; 1; Z.to_nat 3].
Proof.
  destruct (@output_transform_elements 3%Z 2%Z zeros zeros None true
              MoreExamples.merge_heads
              (Tensor [1; 1; Z.to_nat 2; 1] [Fin 1; Fin 2]) 1 1 1)
    as (out & self' & Hcall & Hshape & _);
    try reflexivity; try lia.
  exists out, self'. split; [exact Hcall | exact Hshape].
Defined.

End MultiHeadProjectionFacts.


(** ** [TransformerFFN] *)

Module TransformerFFNFacts.

Import PrePostProcessingWrapper TransformerFFN Examples TFFacts.
Import TimingSignalFacts PositionEmbeddingFacts MultiHeadDenseLayerSpec.
Import MultiHeadProjectionFacts.

#[local] Arguments numel : simpl never.
#[local] Arguments Nat.div : simpl never.
#[local] Arguments Nat.modulo : simpl never.

(** A built dense layer on a 3-D input: row [i / U] of the input
    against column [i mod U] of the kernel, plus the bias. *)
Lemma dense_call_built self a b c U dx kd bd :
  Dense.kernel self = Some (Tensor [c; U] kd) ->
  Dense.bias self = Some (Tensor [U] bd) ->
  Dense.keras_call self (Tensor [a; b; c] dx)
  = Ok (Tensor [a; b; U]
          (tabulate (a * (b * U))
             (fun i => FeedForward.activate (Dense.activation self)
                (fadd (fsum (map (fun l =>
                               fmul (nth ((i / U) * c + l) dx NaN)
                                 (nth (l * U + i mod U) kd NaN))
                               (seq 0 c)))
                   (nth (i mod U) bd NaN)))), self).
Proof.
  intros Hk Hb. unfold Dense.keras_call, ndims.
  cbn [shape length Nat.ltb Nat.leb]. rewrite Hk. cbn [bind].
  unfold Dense.call. rewrite Hk, Hb. cbn [shape data].
  rewrite index_last3. cbn [bind shape removelast app data].
  rewrite Nat.eqb_refl, numel2, tf_add_bias_data. cbn [bind].
  f_equal. f_equal.
  assert (Hdata : tabulate (a * (b * U))
            (fun i => fadd (nth i (matmul (a * b) c U dx kd) NaN)
                        (nth (i mod U) bd NaN))
          = tabulate (a * (b * U))
              (fun i => fadd (fsum (map (fun l =>
                               fmul (nth ((i / U) * c + l) dx NaN)
                                 (nth (l * U + i mod U) kd NaN))
                               (seq 0 c)))
                          (nth (i mod U) bd NaN))).
  { apply tabulate_ext. intros i Hi. now rewrite nth_matmul by lia. }
  rewrite Hdata. unfold FeedForward.activate.
  destruct (Dense.activation self); [|reflexivity].
  unfold tf_map. cbn [shape data]. now rewrite map_tabulate.
Qed.

(** The dense layer that the first call on an input of [c] channels
    leaves. *)
Lemma dense_build u act kinit (s : list nat) c :
  (0 <= u)%Z -> index s (-1) = Ok c ->
  Dense.build (Dense.new u act kinit) s
  = Ok {| Dense.units := u; Dense.activation := act;
          Dense.kernel_initializer := kinit;
          Dense.kernel :=
            Some (Tensor [c; Z.to_nat u]
                    (tabulate (numel [c; Z.to_nat u]) kinit));
          Dense.bias :=
            Some (Tensor [Z.to_nat u]
                    (tabulate (numel [Z.to_nat u]) (fun _ => Fin 0))) |}.
Proof.
  intros Hu Hi. unfold Dense.build, Dense.new. cbn [Dense.units
    Dense.kernel_initializer Dense.activation]. rewrite Hi. cbn [bind].
  rewrite !add_weight_ok by (repeat constructor; lia).
  cbn [bind map]. now rewrite Nat2Z.id.
Qed.

(** The first call of a dense layer on a 3-D input. *)
Lemma dense_first_call u act kinit a b c dx :
  (0 <= u)%Z ->
  exists built,
    Dense.kernel built
    = Some (Tensor [c; Z.to_nat u] (tabulate (numel [c; Z.to_nat u]) kinit))
    /\ Dense.bias built
       = Some (Tensor [Z.to_nat u]
                 (tabulate (numel [Z.to_nat u]) (fun _ => Fin 0)))
    /\ Dense.activation built = act
    /\ Dense.keras_call (Dense.new u act kinit) (Tensor [a; b; c] dx)
       = Ok (Tensor [a; b; Z.to_nat u]
               (tabulate (a * (b * Z.to_nat u))
                  (fun i => FeedForward.hidden act kinit c (Z.to_nat u)
                              (fun l => nth ((i / Z.to_nat u) * c + l) dx NaN)
                              (i mod Z.to_nat u))), built).
Proof.
  intros Hu. eexists. split; [|split; [|split]]; cycle 3.
  - unfold Dense.keras_call at 1. unfold ndims.
    cbn [shape length Nat.ltb Nat.leb Dense.kernel Dense.new].
    rewrite (@dense_build u act kinit [a; b; c] c Hu (index_last3 a b c)).
    cbn [bind].
    match goal with
    | |- context [Dense.call ?bd ?x] =>
        pose proof (@dense_call_built bd a b c (Z.to_nat u) dx _ _
                      eq_refl eq_refl) as Hcall
    end.
    unfold Dense.keras_call, ndims in Hcall.
    cbn [shape length Nat.ltb Nat.leb Dense.kernel bind] in Hcall.
    destruct (Dense.call _ _) as [out|e]; [|discriminate Hcall].
    cbn [bind] in Hcall |- *. injection Hcall as ->.
    f_equal. f_equal. f_equal. apply tabulate_ext. intros i Hi.
    cbn [Dense.activation]. unfold FeedForward.hidden. f_equal.
    set (U := Z.to_nat u) in *.
    assert (HU : 0 < U) by (destruct U; lia).
    pose proof (Nat.mod_upper_bound i U ltac:(lia)) as Hm.
    rewrite numel1, nth_tabulate, fadd_0_r by exact Hm.
    f_equal. apply map_ext_in. intros l Hl. apply in_seq in Hl.
    f_equal. apply nth_tabulate. rewrite numel2. nia.
  - reflexivity.
  - reflexivity.
  - reflexivity.
Qed.

Lemma hidden_ext act k c F row row' f :
  (forall l, l < c -> row l = row' l) ->
  FeedForward.hidden act k c F row f = FeedForward.hidden act k c F row' f.
Proof.
  intros H. unfold FeedForward.hidden. do 2 f_equal.
  apply map_ext_in. intros l Hl. apply in_seq in Hl.
  rewrite H by lia. reflexivity.
Qed.

Lemma output_ext act k1 k2 c F O row row' o :
  (forall l, l < c -> row l = row' l) ->
  FeedForward.output act k1 k2 c F O row o
  = FeedForward.output act k1 k2 c F O row' o.
Proof.
  intros H. unfold FeedForward.output. f_equal.
  apply map_ext. intros f. f_equal. now apply hidden_ext.
Qed.

(** A built layer, outside training, on an input of the width it was
    built for. *)
Lemma ffn_call_built St (dropout : tensor -> R -> M St tensor)
  (self : t) b1 b2 a b c F O k1 k2 dx v (s : St) :
  _conv1 self = Some b1 -> _conv2 self = Some b2 ->
  Dense.kernel b1 = Some (Tensor [c; F] (tabulate (numel [c; F]) k1)) ->
  Dense.bias b1 = Some (Tensor [F] (tabulate (numel [F]) (fun _ => Fin 0))) ->
  Dense.kernel b2 = Some (Tensor [F; O] (tabulate (numel [F; O]) k2)) ->
  Dense.bias b2 = Some (Tensor [O] (tabulate (numel [O]) (fun _ => Fin 0))) ->
  Dense.activation b2 = None ->
  truthy v = Ok false ->
  keras_call dropout self (Tensor [a; b; c] dx) v s
  = (Ok (Tensor [a; b; O]
           (tabulate (a * (b * O))
              (fun i => FeedForward.output (Dense.activation b1) k1 k2 c F O
                          (fun l => nth ((i / O) * c + l) dx NaN)
                          (i mod O))),
         with_layers self b1 b2), s).
Proof.
  intros H1 H2 Hk1 Hb1 Hk2 Hb2 Ha2 Hv.
  unfold keras_call. rewrite H1. unfold call, mbind, lift, ret.
  rewrite H1, H2.
  rewrite (@dense_call_built b1 a b c F dx _ _ Hk1 Hb1).
  cbn [fst snd]. rewrite Hv.
  rewrite (@dense_call_built b2 a b F O _ _ _ Hk2 Hb2).
  cbn [fst snd]. do 4 f_equal.
  apply tabulate_ext. intros i Hi. rewrite Ha2.
  unfold FeedForward.activate at 1. unfold FeedForward.output.
  assert (HO : 0 < O) by (destruct O; lia).
  pose proof (Nat.mod_upper_bound i O ltac:(lia)) as Hm.
  assert (Hq : i / O < a * b).
  { apply Nat.Div0.div_lt_upper_bound. lia. }
  rewrite !numel1.
  rewrite (@nth_tabulate O (fun _ => Fin 0) (i mod O) NaN Hm), fadd_0_r.
  f_equal. apply map_ext_in. intros f Hf. apply in_seq in Hf.
  f_equal.
  - rewrite nth_tabulate by nia.
    rewrite div_row, mod_row by lia.
    unfold FeedForward.hidden. f_equal.
    rewrite (@nth_tabulate F (fun _ => Fin 0) f NaN ltac:(lia)), fadd_0_r.
    f_equal. apply map_ext_in. intros l Hl. apply in_seq in Hl.
    f_equal. apply nth_tabulate. rewrite numel2. nia.
  - apply nth_tabulate. rewrite numel2. nia.
Qed.

(** The first call, outside training. *)
Lemma ffn_first_call St (dropout : tensor -> R -> M St tensor)
  F O rate act k1 k2 a b c dx v (s : St) :
  (0 <= F)%Z -> (0 <= O)%Z -> truthy v = Ok false ->
  exists b1 b2,
    Dense.kernel b1
    = Some (Tensor [c; Z.to_nat F] (tabulate (numel [c; Z.to_nat F]) k1))
    /\ Dense.bias b1
       = Some (Tensor [Z.to_nat F]
                 (tabulate (numel [Z.to_nat F]) (fun _ => Fin 0)))
    /\ Dense.activation b1 = act
    /\ Dense.kernel b2
       = Some (Tensor [Z.to_nat F; Z.to_nat O]
                 (tabulate (numel [Z.to_nat F; Z.to_nat O]) k2))
    /\ Dense.bias b2
       = Some (Tensor [Z.to_nat O]
                 (tabulate (numel [Z.to_nat O]) (fun _ => Fin 0)))
    /\ Dense.activation b2 = None
    /\ keras_call dropout (init F O rate act k1 k2) (Tensor [a; b; c] dx)
         v s
       = (Ok (Tensor [a; b; Z.to_nat O]
                (tabulate (a * (b * Z.to_nat O))
                   (fun i => FeedForward.output act k1 k2 c
                               (Z.to_nat F) (Z.to_nat O)
                               (fun l => nth ((i / Z.to_nat O) * c + l) dx NaN)
                               (i mod Z.to_nat O))),
              with_layers (build (init F O rate act k1 k2)) b1 b2), s).
Proof.
  intros HF HO Hv.
  destruct (@dense_first_call F act k1 a b c dx HF)
    as (b1 & Hk1 & Hb1 & Ha1 & Hc1).
  set (hid := tabulate (a * (b * Z.to_nat F))
                (fun i => FeedForward.hidden act k1 c (Z.to_nat F)
                            (fun l => nth ((i / Z.to_nat F) * c + l) dx NaN)
                            (i mod Z.to_nat F))) in *.
  destruct (@dense_first_call O None k2 a b (Z.to_nat F) hid HO)
    as (b2 & Hk2 & Hb2 & Ha2 & Hc2).
  exists b1, b2. repeat (split; [assumption|]).
  unfold keras_call, init. cbn [_conv1 build].
  unfold call, mbind, lift, ret.
  cbn [build _conv1 _conv2 _filter_size _output_size _activation_fn
       _kernel_initializer1 _kernel_initializer2].
  rewrite Hc1. cbn [fst snd]. rewrite Hv, Hc2. cbn [fst snd].
  do 4 f_equal. apply tabulate_ext. intros i Hi.
  unfold FeedForward.hidden at 1. cbn [FeedForward.activate].
  unfold FeedForward.output. f_equal.
  apply map_ext_in. intros f Hf. apply in_seq in Hf. f_equal.
  assert (Hq : i / Z.to_nat O < a * b).
  { apply Nat.Div0.div_lt_upper_bound. lia. }
  subst hid. rewrite nth_tabulate by nia.
  now rewrite div_row, mod_row by lia.
Qed.

Section Facts.

Variable St : Type.
Variable dropout : tensor -> R -> M St tensor.

(** X13: outside training, the first call on a 3-D input returns, at
    each position, the second kernel applied to the activated first
    kernel applied to the input at that position; it has
    [output_size] channels, and the state of the runtime is the one
    it started from (dropout has not run). *)
Theorem ffn_inference F O rate act k1 k2 x a b c v (s : St) :
  (0 <= F)%Z -> (0 <= O)%Z -> truthy v = Ok false ->
  shape x = [a; b; c] ->
  exists out self',
    keras_call dropout (init F O rate act k1 k2) x v s
    = (Ok (out, self'), s)
    /\ shape out = [a; b; Z.to_nat O]
    /\ forall i j o, i < a -> j < b -> o < Z.to_nat O ->
         tget out [i; j; o]
         = FeedForward.output act k1 k2 c (Z.to_nat F) (Z.to_nat O)
             (fun l => tget x [i; j; l]) o.
Proof.
  intros HF HO Hv Hx. destruct x as [sx dx]. cbn in Hx. subst sx.
  destruct (@ffn_first_call St dropout F O rate act k1 k2 a b c dx v s
              HF HO Hv) as (b1 & b2 & _ & _ & _ & _ & _ & _ & ->).
  eexists. eexists. split; [reflexivity|]. split; [reflexivity|].
  intros i j o Hi Hj Ho.
  rewrite tget3_tabulate by assumption.
  replace (i * (b * Z.to_nat O) + (j * Z.to_nat O + o))
    with ((i * b + j) * Z.to_nat O + o) by lia.
  rewrite div_row, mod_row by exact Ho.
  apply output_ext. intros l Hl.
  rewrite (@tget3 _ a b c) by reflexivity. unfold elt. cbn [data].
  f_equal. lia.
Qed.

(** X14: the network is position-wise: outside training, two inputs
    that agree at one position each (whatever else they hold, and
    whatever their batch sizes and lengths) give the same output at
    these positions. *)
Theorem ffn_position_wise
  F O rate act k1 k2 x x' a b a' b' c i j i' j' v (s s' : St) :
  (0 <= F)%Z -> (0 <= O)%Z -> truthy v = Ok false ->
  shape x = [a; b; c] -> shape x' = [a'; b'; c] ->
  i < a -> j < b -> i' < a' -> j' < b' ->
  (forall l, l < c -> tget x [i; j; l] = tget x' [i'; j'; l]) ->
  exists out out' self1 self2,
    keras_call dropout (init F O rate act k1 k2) x v s
    = (Ok (out, self1), s)
    /\ keras_call dropout (init F O rate act k1 k2) x' v s'
       = (Ok (out', self2), s')
    /\ forall o, o < Z.to_nat O ->
         tget out [i; j; o] = tget out' [i'; j'; o].
Proof.
  intros HF HO Hv Hx Hx' Hi Hj Hi' Hj' Hrow.
  destruct x as [sx dx]. cbn in Hx. subst sx.
  destruct x' as [sx' dx']. cbn in Hx'. subst sx'.
  destruct (@ffn_first_call St dropout F O rate act k1 k2 a b c dx v s
              HF HO Hv) as (b1 & b2 & _ & _ & _ & _ & _ & _ & ->).
  destruct (@ffn_first_call St dropout F O rate act k1 k2 a' b' c dx' v s'
              HF HO Hv) as (b1' & b2' & _ & _ & _ & _ & _ & _ & ->).
  do 4 eexists. split; [reflexivity|]. split; [reflexivity|].
  intros o Ho. rewrite !tget3_tabulate by assumption.
  replace (i * (b * Z.to_nat O) + (j * Z.to_nat O + o))
    with ((i * b + j) * Z.to_nat O + o) by lia.
  replace (i' * (b' * Z.to_nat O) + (j' * Z.to_nat O + o))
    with ((i' * b' + j') * Z.to_nat O + o) by lia.
  rewrite !div_row, !mod_row by exact Ho.
  apply output_ext. intros l Hl. specialize (Hrow l Hl).
  rewrite (@tget3 _ a b c), (@tget3 _ a' b' c) in Hrow by reflexivity.
  unfold elt in Hrow. cbn [data] in Hrow.
  replace ((i * b + j) * c + l) with (i * (b * c) + (j * c + l)) by lia.
  replace ((i' * b' + j') * c + l) with (i' * (b' * c) + (j' * c + l))
    by lia.
  exact Hrow.
Qed.

(** X15: the weights are created by the first call and kept: outside
    training, a later call on an input of the same number of channels
    uses the same two kernels and returns the layer as it was; a later
    call on an input of another number of channels raises. *)
Theorem ffn_weights_kept
  F O rate act k1 k2 x a b c v (s s1 : St) out self'
  x2 a2 b2 c2 v2 (s2 : St) :
  (0 <= F)%Z -> (0 <= O)%Z -> truthy v = Ok false ->
  shape x = [a; b; c] ->
  keras_call dropout (init F O rate act k1 k2) x v s
  = (Ok (out, self'), s1) ->
  truthy v2 = Ok false ->
  shape x2 = [a2; b2; c2] ->
  (c2 <> c ->
   keras_call dropout self' x2 v2 s2 = (Raise ValueError, s2))
  /\ (c2 = c ->
      exists out2,
        keras_call dropout self' x2 v2 s2 = (Ok (out2, self'), s2)
        /\ shape out2 = [a2; b2; Z.to_nat O]
        /\ forall i j o, i < a2 -> j < b2 -> o < Z.to_nat O ->
             tget out2 [i; j; o]
             = FeedForward.output act k1 k2 c (Z.to_nat F) (Z.to_nat O)
                 (fun l => tget x2 [i; j; l]) o).
Proof.
  intros HF HO Hv Hx Hcall Hv2 Hx2.
  destruct x as [sx dx]. cbn in Hx. subst sx.
  destruct x2 as [sx2 dx2]. cbn in Hx2. subst sx2.
  destruct (@ffn_first_call St dropout F O rate act k1 k2 a b c dx v s
              HF HO Hv)
    as (b1 & b2' & Hk1 & Hb1 & Ha1 & Hk2 & Hb2 & Ha2 & Heq).
  rewrite Heq in Hcall. injection Hcall as <- <- <-.
  split.
  - intros Hne. unfold keras_call. cbn [with_layers _conv1].
    unfold call, mbind, lift. cbn [with_layers _conv1].
    unfold Dense.keras_call, ndims.
    cbn [shape length Nat.ltb Nat.leb]. rewrite Hk1. cbn [bind].
    unfold Dense.call. rewrite Hk1, Hb1. cbn [shape].
    rewrite index_last3. cbn [bind].
    replace (c2 =? c) with false
      by (symmetry; apply Nat.eqb_neq; exact Hne).
    reflexivity.
  - intros ->.
    rewrite (@ffn_call_built St dropout
               (with_layers (build (init F O rate act k1 k2)) b1 b2')
               b1 b2' a2 b2 c
               (Z.to_nat F) (Z.to_nat O) k1 k2 dx2 v2 s2
               eq_refl eq_refl Hk1 Hb1 Hk2 Hb2 Ha2 Hv2).
    rewrite Ha1.
    eexists. split; [reflexivity|]. split; [reflexivity|].
    intros i j o Hi Hj Ho.
    rewrite tget3_tabulate by assumption.
    replace (i * (b2 * Z.to_nat O) + (j * Z.to_nat O + o))
      with ((i * b2 + j) * Z.to_nat O + o) by lia.
    rewrite div_row, mod_row by exact Ho.
    apply output_ext. intros l Hl.
    rewrite (@tget3 _ a2 b2 c) by reflexivity. unfold elt. cbn [data].
    f_equal. lia.
Qed.

(** X18: in training, dropout receives the hidden activations and the
    configured rate, and the output is the second kernel applied to
    what dropout returns: the output itself is not dropped. *)
Theorem ffn_training F O rate act k1 k2 x a b c v (s s1 : St) d :
  (0 <= F)%Z -> (0 <= O)%Z -> truthy v = Ok true ->
  shape x = [a; b; c] ->
  dropout (FeedForward.hidden_tensor act k1 (Z.to_nat F) x) rate s
  = (Ok d, s1) ->
  shape d = [a; b; Z.to_nat F] ->
  exists out self',
    keras_call dropout (init F O rate act k1 k2) x v s
    = (Ok (out, self'), s1)
    /\ shape out = [a; b; Z.to_nat O]
    /\ forall i j o, i < a -> j < b -> o < Z.to_nat O ->
         tget out [i; j; o]
         = fsum (map (fun f => fmul (tget d [i; j; f])
                                (k2 (f * Z.to_nat O + o)))
                   (seq 0 (Z.to_nat F))).
Proof.
  intros HF HO Hv Hx Hd Hsd.
  destruct x as [sx dx]. cbn in Hx. subst sx.
  destruct d as [sd dd]. cbn in Hsd. subst sd.
  destruct (@dense_first_call F act k1 a b c dx HF)
    as (b1 & _ & _ & _ & Hc1).
  destruct (@dense_first_call O None k2 a b (Z.to_nat F) dd HO)
    as (b2 & _ & _ & _ & Hc2).
  unfold FeedForward.hidden_tensor in Hd. cbn [shape elt data] in Hd.
  unfold keras_call, init. cbn [_conv1 build].
  unfold call, mbind, lift, ret.
  cbn [build _conv1 _conv2 _filter_size _output_size _activation_fn
       _kernel_initializer1 _kernel_initializer2 _dropout_rate].
  rewrite Hc1. cbn [fst snd]. rewrite Hv.
  unfold elt in Hd. cbn [data] in Hd. rewrite Hd, Hc2. cbn [fst snd].
  eexists. eexists. split; [reflexivity|]. split; [reflexivity|].
  intros i j o Hi Hj Ho.
  rewrite tget3_tabulate by assumption.
  replace (i * (b * Z.to_nat O) + (j * Z.to_nat O + o))
    with ((i * b + j) * Z.to_nat O + o) by lia.
  rewrite div_row, mod_row by exact Ho.
  unfold FeedForward.hidden. cbn [FeedForward.activate]. f_equal.
  apply map_ext. intros f. f_equal.
  rewrite (@tget3 _ a b (Z.to_nat F)) by reflexivity.
  unfold elt. cbn [data]. f_equal. lia.
Qed.

End Facts.

Lemma ffn_training_witness :
  exists out self',
    keras_call count_dropout
      (init 2 1 (1 / 10)%R None zeros zeros) x111 (PyBool true) 0
    = (Ok (out, self'), 1)
    /\ shape out = [1; 1; Z.to_nat 1].
Proof.
  destruct (@ffn_training nat count_dropout 2%Z 1%Z (1 / 10)%R None
              zeros zeros x111 1 1 1 (PyBool true) 0 1
              (FeedForward.hidden_tensor None zeros (Z.to_nat 2) x111))
    as (out & self' & Hcall & Hshape & _);
    try reflexivity; try lia.
  exists out, self'. split; [exact Hcall | exact Hshape].
Defined.

Lemma ffn_inference_witness :
  exists out self',
    keras_call count_dropout
      (init 2 1 (1 / 10)%R None zeros zeros) x111 (PyBool false) 0
    = (Ok (out, self'), 0)
    /\ shape out = [1; 1; Z.to_nat 1].
Proof.
  destruct (@ffn_inference nat count_dropout 2%Z 1%Z (1 / 10)%R None
              zeros zeros x111 1 1 1 (PyBool false) 0)
    as (out & self' & Hcall & Hshape & _);
    try reflexivity; try lia.
  exists out, self'. split; [exact Hcall | exact Hshape].
Defined.

Lemma ffn_position_wise_witness :
  exists out out' self1 self2,
    keras_call count_dropout
      (init 2 1 (1 / 10)%R None zeros zeros) x111 (PyBool false) 0
    = (Ok (out, self1), 0)
    /\ keras_call count_dropout
         (init 2 1 (1 / 10)%R None zeros zeros)
         (Tensor [1; 2; 1] [Fin 5; Fin 1]) (PyBool false) 7
       = (Ok (out', self2), 7)
    /\ forall o, o < Z.to_nat 1 -> tget out [0; 0; o] = tget out' [0; 1; o].
Proof.
  apply (@ffn_position_wise nat count_dropout 2%Z 1%Z (1 / 10)%R None
           zeros zeros x111 (Tensor [1; 2; 1] [Fin 5; Fin 1])
           1 1 1 2 1 0 0 0 1 (PyBool false) 0 7);
    try reflexivity; try lia.
Defined.

Lemma ffn_weights_kept_witness :
  exists out self',
    keras_call count_dropout
      (init 2 1 (1 / 10)%R None zeros zeros) x111 (PyBool false) 0
    = (Ok (out, self'), 0)
    /\ keras_call count_dropout self' x112 (PyBool false) 3
       = (Raise ValueError, 3).
Proof.
  destruct (@ffn_first_call nat count_dropout 2%Z 1%Z (1 / 10)%R None
              zeros zeros 1 1 1 [Fin 1] (PyBool false) 0)
    as (b1 & b2 & _ & _ & _ & _ & _ & _ & Heq);
    try reflexivity; try lia.
  eexists. eexists. split; [exact Heq|].
  apply (proj1 (@ffn_weights_kept nat count_dropout 2%Z 1%Z (1 / 10)%R
                  None zeros zeros x111 1 1 1 (PyBool false) 0 0 _ _
                  x112 1 1 2 (PyBool false) 3
                  ltac:(lia) ltac:(lia) eq_refl eq_refl Heq
                  eq_refl eq_refl)).
  discriminate.
Defined.

End TransformerFFNFacts.


(** ** [PrePostProcessingWrapper]: the residual connection *)

Module ResidualFacts.

Import PrePostProcessingWrapper Examples TFFacts.

(** The sum of two tensors of one shape, element by element. *)
Lemma tf_add_same_shape x y :
  shape y = shape x ->
  tf_add x y
  = Ok (Tensor (shape x)
          (tabulate (numel (shape x))
             (fun i => fadd (elt x i) (elt y i)))).
Proof.
  intros Hs. unfold tf_add, tf_binop. rewrite Hs, broadcast_shape_refl.
  cbn [bind]. f_equal. f_equal. apply tabulate_ext. intros i Hi.
  unfold bget. rewrite Hs, align_self.
  now rewrite ravel_bcoords_unravel by exact Hi.
Qed.

Section Facts.

Variable St : Type.
Variable LayerNormalization : R -> tensor -> M St tensor.
Variable dropout : tensor -> R -> M St tensor.

(** X16: when the inner layer (and dropout, in training) keep the
    shape of the input, the call returns a tensor of that shape whose
    every element is the input's element plus the element of the
    processed output: the residual connection bypasses the
    normalisation. *)
Theorem call_residual_elementwise
  layer rate inputs args (kw : kwargs) v b s0 y1 s1 y2 s2 y3 s3 :
  kw !! "is_training"%string = Some v ->
  LayerNormalization (1 / 1000000)%R inputs s0 = (Ok y1, s1) ->
  layer y1 args kw s1 = (Ok y2, s2) ->
  truthy v = Ok b ->
  (if b then dropout y2 rate s2 else (Ok y2, s2)) = (Ok y3, s3) ->
  shape y3 = shape inputs ->
  exists out,
    call dropout (build LayerNormalization (init layer rate))
      inputs args kw s0 = (Ok out, s3)
    /\ shape out = shape inputs
    /\ length (data out) = numel (shape inputs)
    /\ forall i, i < numel (shape inputs) ->
         elt out i = fadd (elt inputs i) (elt y3 i).
Proof.
  intros Hkw Hn Hl Ht Hd Hs.
  unfold call, mbind, lift, build, init. cbn.
  rewrite Hkw, Hn, Hl, Ht.
  assert (Hsum : exists out,
            tf_add inputs y3 = Ok out
            /\ shape out = shape inputs
            /\ length (data out) = numel (shape inputs)
            /\ forall i, i < numel (shape inputs) ->
                 elt out i = fadd (elt inputs i) (elt y3 i)).
  { rewrite (@tf_add_same_shape inputs y3 Hs).
    eexists. split; [reflexivity|]. split; [reflexivity|].
    split; [apply length_tabulate|].
    intros i Hi. unfold elt at 1. cbn [data]. now apply nth_tabulate. }
  destruct Hsum as (out & Hadd & Hout).
  exists out. split; [|exact Hout].
  destruct b; [rewrite Hd | unfold ret; injection Hd as -> ->];
    now rewrite Hadd.
Qed.

End Facts.

Lemma call_residual_elementwise_witness :
  exists out,
    call count_dropout (build count_norm (init zero_layer (1 / 10)%R))
      x12 [] inference 0 = (Ok out, 2)
    /\ shape out = shape x12
    /\ length (data out) = numel (shape x12)
    /\ forall i, i < numel (shape x12) ->
         elt out i = fadd (elt x12 i) (elt (tf_map (fun _ => Fin 0) x12) i).
Proof.
  eapply call_residual_elementwise
    with (v := PyBool false) (b := false) (y1 := x12) (s1 := 1);
    reflexivity.
Defined.

End ResidualFacts.


(** ** [PositionEmbeddingWrapper]: from construction to the first call *)

Module PositionEmbeddingBuildFacts.

Import PositionEmbeddingWrapper Examples TFFacts MultiHeadDenseLayerSpec.
Import TimingSignalFacts PositionEmbeddingFacts.

#[local] Arguments numel : simpl never.

Section Facts.

Variable Inputs : Type.

(** X17: a wrapper constructed with timing ["emb"] and built holds a
    table of [max_positions] rows drawn by its initializer, and its
    call on a sequence no longer than [max_positions] adds to the
    embedding at position [l], channel [c] the initial value
    [l * embedding_dim + c] of the table. *)
Theorem learned_positions_from_init
  (layer : embedding_layer_t Inputs) max_positions initializer self0 self
  inputs time (kw : kwargs) emb B L C :
  init (PyStr "emb") layer max_positions initializer = Ok self0 ->
  build self0 = Ok self ->
  embedding_dim layer = Z.of_nat C ->
  default (PyStr "embedding") (kw !! "mode"%string) = PyStr "embedding" ->
  embedding_call layer inputs kw = Ok emb ->
  shape emb = [B; L; C] ->
  (Z.of_nat L <= max_positions)%Z ->
  exists out,
    call self inputs time kw = Ok out
    /\ shape out = [B; L; C]
    /\ forall b l c, b < B -> l < L -> c < C ->
         tget out [b; l; c]
         = fadd (tget emb [b; l; c]) (initializer (l * C + c)).
Proof.
  intros Hinit Hbuild Hdim Hm He Hs HL.
  unfold init in Hinit. cbn in Hinit. injection Hinit as <-.
  unfold build in Hbuild. cbn [_timing _max_positions _embedding_dim
    _table_initializer _embedding_layer] in Hbuild.
  rewrite Hdim in Hbuild.
  destruct (Z.of_nat C =? 0)%Z; [discriminate Hbuild|]. cbn [bind] in Hbuild.
  rewrite add_weight_ok in Hbuild by (repeat constructor; lia).
  cbn [bind map] in Hbuild. rewrite Nat2Z.id in Hbuild.
  injection Hbuild as <-.
  destruct emb as [sx dx]. cbn in Hs. subst sx.
  set (P := Z.to_nat max_positions).
  rewrite (@call_learned_3d_data Inputs _ inputs time kw
             (Tensor [P; C] (tabulate (numel [P; C]) initializer))
             P B L C dx); try reflexivity; try assumption; try (subst P; lia).
  eexists. split; [reflexivity|]. split; [reflexivity|].
  intros b l c Hb Hl Hc.
  rewrite tget3_tabulate by assumption.
  rewrite (@tget3 _ B L C) by reflexivity. unfold elt. cbn [data].
  rewrite mod_batch by nia. f_equal.
  apply nth_tabulate. rewrite numel2. subst P. nia.
Qed.

End Facts.

Lemma learned_positions_from_init_witness :
  exists out,
    call (wrapper (Some Emb)) x112 None ∅ = Ok out
    /\ shape out = [1; 1; 2]
    /\ forall b l c, b < 1 -> l < 1 -> c < 2 ->
         tget out [b; l; c]
         = fadd (tget x112 [b; l; c]) ((fun _ => Fin 1) (l * 2 + c)).
Proof.
  eapply (@learned_positions_from_init tensor echo_embedding 512%Z
            (fun _ => Fin 1) _ (wrapper (Some Emb)) x112 None ∅ x112 1 1 2);
    try reflexivity. lia.
Defined.

End PositionEmbeddingBuildFacts.
